(** * nitransforms.linear: linear transforms on image data

    A shallow embedding of [nitransforms/linear.py]: the classes [Affine]
    and [LinearTransformsMapping], their [map], [__eq__], [to_filename],
    [from_filename] and [apply] methods, and the module-level [load].

    Numbers are exact rationals ([Qc]): every finite float and every Python
    integer is one, and the rounding of floating-point arithmetic is left
    out.  NumPy arrays carry their shape, so that empty arrays keep their
    column count.  Python exceptions are the constructors of [exn];
    warnings, file writes and interpolation calls are events of a log. *)

From Stdlib Require Import List ZArith QArith Qcanon Qcabs Bool Arith Lia.
From Stdlib Require Import String Ascii DecimalString.
Import ListNotations.

Set Implicit Arguments.

(** ** Python values, exceptions and effects *)

Inductive exn : Type :=
| TypeError (msg : string)
| ValueError (msg : string)
| NotImplementedError
| LinAlgError (msg : string)
| IndexError
| AttributeError
| UnboundLocalError
| External (who : string).

Inductive result (A : Type) : Type :=
| Ok (a : A)
| Raise (e : exn).

Arguments Ok {A} a.
Arguments Raise {A} e.

Definition rbind {A B : Type} (c : result A) (k : A -> result B) : result B :=
  match c with
  | Ok a => k a
  | Raise e => Raise e
  end.

Declare Scope py_scope.
Delimit Scope py_scope with py.
Notation "x <- c ;; k" := (rbind c (fun x => k))
  (at level 61, c at next level, right associativity) : py_scope.

Fixpoint mapM {A B : Type} (f : A -> result B) (l : list A) : result (list B) :=
  match l with
  | [] => Ok []
  | a :: l' =>
      match f a with
      | Raise e => Raise e
      | Ok b =>
          match mapM f l' with
          | Raise e => Raise e
          | Ok bs => Ok (b :: bs)
          end
      end
  end.

(** The values an argument such as [inverse] can take. *)
Inductive pyobj : Type :=
| PyNone
| PyBool (b : bool)
| PyInt (z : Z)
| PyFloat (q : Qc)
| PyStr (s : string).

(** Python's truth value of an object. *)
Definition truthy (v : pyobj) : bool :=
  match v with
  | PyNone => false
  | PyBool b => b
  | PyInt z => negb (z =? 0)%Z
  | PyFloat q => negb (Qeq_bool q 0)
  | PyStr s => negb (String.eqb s EmptyString)
  end.

(** [v is True]: identity with the singleton [True]. *)
Definition is_True (v : pyobj) : bool :=
  match v with
  | PyBool true => true
  | _ => false
  end.

(** [str.lower] on ASCII text. *)
Definition lower_ascii (c : ascii) : ascii :=
  let n := nat_of_ascii c in
  if andb (65 <=? n) (n <=? 90) then ascii_of_nat (n + 32) else c.

Fixpoint lower (s : string) : string :=
  match s with
  | EmptyString => EmptyString
  | String c s' => String (lower_ascii c) (lower s')
  end.

Fixpoint str_in (s : string) (l : list string) : bool :=
  match l with
  | [] => false
  | t :: l' => String.eqb s t || str_in s l'
  end.

(** ** NumPy: vectors and 2-D arrays *)

Local Open Scope Qc_scope.
Local Open Scope list_scope.

Definition Qc_eqb (x y : Qc) : bool := Qeq_bool x y.
Definition Qc_leb (x y : Qc) : bool := Qle_bool x y.

Abbreviation vec := (list Qc).

Fixpoint dotp (u v : vec) : Qc :=
  match u, v with
  | x :: u', y :: v' => x * y + dotp u' v'
  | _, _ => 0
  end.

Definition vscale (c : Qc) (v : vec) : vec := List.map (Qcmult c) v.

Fixpoint vsub (u v : vec) : vec :=
  match u, v with
  | x :: u', y :: v' => (x - y) :: vsub u' v'
  | _, _ => []
  end.

(** A 2-D array: its rows and the length of its second axis. *)
Record mat : Type := mkmat { rows : list vec; ncols : nat }.

Definition nrows (m : mat) : nat := List.length (rows m).

(** The array is rectangular: every row has [ncols] entries. *)
Definition wf_mat (m : mat) : Prop :=
  Forall (fun r => List.length r = ncols m) (rows m).

Definition square (n : nat) (m : mat) : Prop :=
  wf_mat m /\ nrows m = n /\ ncols m = n.

Definition unitv (n i : nat) : vec :=
  List.map (fun j => if Nat.eqb i j then 1 else 0) (seq 0 n).

(** [np.eye(n)] *)
Definition eye (n : nat) : mat :=
  mkmat (List.map (unitv n) (seq 0 n)) n.

Definition column (j : nat) (rs : list vec) : vec :=
  List.map (fun r => nth j r 0) rs.

(** [m.T] *)
Definition transpose (m : mat) : mat :=
  mkmat (List.map (fun j => column j (rows m)) (seq 0 (ncols m))) (nrows m).

Definition matvec (a : list vec) (x : vec) : vec :=
  List.map (fun r => dotp r x) a.

(** [a.dot(b)] on 2-D arrays: entry (i, n) is the sum over j of
    a[i][j] * b[j][n]; the inner dimensions have to agree. *)
Definition dot (a b : mat) : result mat :=
  if Nat.eqb (ncols a) (nrows b) then
    Ok (mkmat (List.map (fun r => List.map (fun c => dotp r c) (rows (transpose b)))
                 (rows a))
          (ncols b))
  else Raise (ValueError "shapes not aligned").

(** [m[..., :-1]]: every row without its last entry. *)
Definition drop_last_column (m : mat) : mat :=
  mkmat (List.map (@removelast Qc) (rows m)) (Nat.pred (ncols m)).

(** [m[..., :k]] *)
Definition first_columns (k : nat) (m : mat) : mat :=
  mkmat (List.map (firstn k) (rows m)) (Nat.min k (ncols m)).

(** *** [np.linalg.inv]

    NumPy's inverse is a library routine; it is modelled by exact
    Gauss-Jordan elimination on the rows of [a | I].  A row is a pair of
    its left and right halves.  In step [k] a row with a nonzero entry in
    column [k] is taken out of the rows still to do, scaled to a leading
    one, and subtracted from all others; when no such row exists the
    matrix is singular and [LinAlgError] is raised.

    The library works in binary64: where its arithmetic is exact it agrees
    with this model, but on an ill-conditioned matrix a pivot can round to
    zero, or a zero pivot to a nonzero number, so that the library raises
    on some invertible matrices and returns on some singular ones.  The
    methods that call it, [map] and [_to_hdf5], are therefore defined with
    the routine as an argument ([map_using], [_to_hdf5_using]), and the
    properties that depend on whether the routine returns are stated for
    every routine. *)

Abbreviation aug := (vec * vec)%type.

Definition row_scale (c : Qc) (r : aug) : aug :=
  (vscale c (fst r), vscale c (snd r)).

Definition row_sub (r p : aug) (c : Qc) : aug :=
  (vsub (fst r) (vscale c (fst p)), vsub (snd r) (vscale c (snd p))).

Definition eliminate (k : nat) (p r : aug) : aug :=
  row_sub r p (nth k (fst r) 0).

Fixpoint find_pivot (k : nat) (todo : list aug) : option (aug * list aug) :=
  match todo with
  | [] => None
  | r :: rest =>
      if Qc_eqb (nth k (fst r) 0) 0 then
        match find_pivot k rest with
        | Some (p, others) => Some (p, r :: others)
        | None => None
        end
      else Some (r, rest)
  end.

Fixpoint gauss_jordan (steps k : nat) (done todo : list aug) : option (list aug) :=
  match steps with
  | O => Some done
  | S steps' =>
      match find_pivot k todo with
      | None => None
      | Some (p, others) =>
          let p' := row_scale (/ nth k (fst p) 0) p in
          gauss_jordan steps' (S k)
            (List.map (eliminate k p') done ++ [p'])
            (List.map (eliminate k p') others)
      end
  end.

Definition linalg_inv (a : mat) : result mat :=
  if Nat.eqb (nrows a) (ncols a) then
    match gauss_jordan (nrows a) 0 [] (combine (rows a) (rows (eye (nrows a)))) with
    | Some d => Ok (mkmat (List.map snd d) (ncols a))
    | None => Raise (LinAlgError "Singular matrix")
    end
  else Raise (LinAlgError "Last 2 dimensions of the array must be square").

(** The invariant of the elimination, for an n x n matrix with rows [A].
    A row [(l, r)] of the tableau stands for the equation
    [l . x = r . (A x)]. *)
Definition row_ok (n : nat) (A : list vec) (row : aug) : Prop :=
  List.length (fst row) = n /\ List.length (snd row) = n /\
  forall x, List.length x = n -> dotp (fst row) x = dotp (snd row) (matvec A x).

(** The left half of [row] sends [x] to zero. *)
Definition kills (x : vec) (row : aug) : Prop := dotp (fst row) x = 0.

(** Before step [k]: every row is an equation of [A]; the first [k] columns
    of the rows done are those of the identity and those of the rows to do
    are zero; a vector killed by all rows is killed by [A]. *)
Record gj_inv (n : nat) (A : list vec) (k : nat) (done todo : list aug) : Prop := {
  inv_rows : Forall (row_ok n A) (done ++ todo);
  inv_done : List.map (fun row : aug => firstn k (fst row)) done
             = List.map (unitv k) (seq 0 k);
  inv_todo : Forall (fun row : aug => firstn k (fst row) = repeat 0 k) todo;
  inv_kernel : forall x, List.length x = n ->
      Forall (kills x) (done ++ todo) -> Forall (fun a => dotp a x = 0) A
}.

(** Decidable equality of arrays, to evaluate closed examples. *)
Fixpoint vec_eqb (u v : vec) : bool :=
  match u, v with
  | [], [] => true
  | x :: u', y :: v' => Qc_eqb x y && vec_eqb u' v'
  | _, _ => false
  end.

Fixpoint rows_eqb (a b : list vec) : bool :=
  match a, b with
  | [], [] => true
  | r :: a', s :: b' => vec_eqb r s && rows_eqb a' b'
  | _, _ => false
  end.

Definition mat_eqb (a b : mat) : bool :=
  rows_eqb (rows a) (rows b) && Nat.eqb (ncols a) (ncols b).

(** *** [np.allclose]

    [np.allclose(a, b, rtol)] is [all(|a - b| <= atol + rtol * |b|)] after
    broadcasting, with NumPy's default [atol = 1e-8]. *)

Definition atol_default : Qc := Q2Qc (1 # 100000000).

Definition isclose (rtol atol a b : Qc) : bool :=
  Qc_leb (Qcabs (a - b)) (atol + rtol * Qcabs b).

(** Broadcasting of one axis: equal lengths, or one of them is 1. *)
Definition broadcast_dim (d1 d2 : nat) : option nat :=
  if Nat.eqb d1 d2 then Some d1
  else if Nat.eqb d1 1 then Some d2
  else if Nat.eqb d2 1 then Some d1
  else None.

(** Entry (i, j) of [m] seen through broadcasting: an axis of length 1 is
    read at index 0. *)
Definition bget (m : mat) (i j : nat) : Qc :=
  nth (if Nat.eqb (ncols m) 1 then 0%nat else j)
      (nth (if Nat.eqb (nrows m) 1 then 0%nat else i) (rows m) []) 0.

Definition allclose (rtol : Qc) (a b : mat) : result bool :=
  match broadcast_dim (nrows a) (nrows b), broadcast_dim (ncols a) (ncols b) with
  | Some r, Some c =>
      Ok (forallb (fun i =>
            forallb (fun j => isclose rtol atol_default (bget a i j) (bget b i j))
              (seq 0 c))
            (seq 0 r))
  | _, _ => Raise (ValueError "operands could not be broadcast together")
  end.

(** *** N-dimensional data arrays: a shape and a row-major buffer *)

Record ndarray : Type := mkarr { shape : list nat; buffer : list Qc }.

Definition ndim (a : ndarray) : nat := List.length (shape a).

Definition size_of (sh : list nat) : nat := fold_right Nat.mul 1%nat sh.

(** [np.squeeze]: axes of length one are removed. *)
Definition squeeze (a : ndarray) : ndarray :=
  mkarr (filter (fun d => negb (Nat.eqb d 1)) (shape a)) (buffer a).

(** [a[..., t]]: the entries whose last index is [t]. *)
Definition take_last_axis (t : nat) (a : ndarray) : ndarray :=
  let T := last (shape a) 0%nat in
  mkarr (removelast (shape a))
    (List.map (fun i => nth (i * T + t) (buffer a) 0)
       (seq 0 (Nat.div (List.length (buffer a)) T))).

(** [a.reshape(sh)] *)
Definition reshape (sh : list nat) (a : ndarray) : result ndarray :=
  if Nat.eqb (size_of sh) (List.length (buffer a)) then Ok (mkarr sh (buffer a))
  else Raise (ValueError "cannot reshape array").

(** [np.moveaxis(a, 0, -1)] *)
Definition moveaxis_first_to_last (a : ndarray) : ndarray :=
  match shape a with
  | [] => a
  | k :: rest =>
      let m := size_of rest in
      mkarr (rest ++ [k])
        (List.map (fun i => nth ((i mod k) * m + i / k) (buffer a) 0) (seq 0 (k * m)))
  end.

(** [np.stack(vs, axis=0)] of 1-D arrays. *)
Definition stack_vectors (vs : list vec) : result ndarray :=
  match vs with
  | [] => Raise (ValueError "need at least one array to stack")
  | v :: rest =>
      if forallb (fun w => Nat.eqb (List.length w) (List.length v)) rest
      then Ok (mkarr [List.length vs; List.length v] (List.concat vs))
      else Raise (ValueError "all input arrays must have the same shape")
  end.

(** [np.stack(ms, axis=0)] of 2-D arrays. *)
Definition same_shape (a b : mat) : bool :=
  Nat.eqb (nrows a) (nrows b) && Nat.eqb (ncols a) (ncols b).

Definition np_stack (ms : list mat) : result (list mat) :=
  match ms with
  | [] => Raise (ValueError "need at least one array to stack")
  | m :: rest =>
      if forallb (same_shape m) rest then Ok ms
      else Raise (ValueError "all input arrays must have the same shape")
  end.

(** [np.vstack] of a stack of 2-D arrays: their rows, one block after the other. *)
Definition vstack (ms : list mat) : mat :=
  mkmat (List.concat (List.map rows ms)) (ncols (hd (mkmat [] 0) ms)).

Fixpoint chunks {A : Type} (n k : nat) (l : list A) : list (list A) :=
  match k with
  | O => []
  | S k' => firstn n l :: chunks n k' (skipn n l)
  end.

(** [m.reshape((k, -1, m.shape[-1]))] *)
Definition reshape_blocks (k : nat) (m : mat) : result (list mat) :=
  if Nat.eqb (k * ncols m) 0 then Raise (ValueError "cannot reshape array")
  else if Nat.eqb (nrows m mod k) 0
       then Ok (List.map (fun rs => mkmat rs (ncols m)) (chunks (nrows m / k) k (rows m)))
       else Raise (ValueError "cannot reshape array").

(** Sequence indexing, negative indices counting from the end. *)
Definition py_index {A : Type} (l : list A) (i : Z) : result A :=
  let n := Z.of_nat (List.length l) in
  let j := if (i <? 0)%Z then (n + i)%Z else i in
  if ((0 <=? j)%Z && (j <? n)%Z)%bool then
    match nth_error l (Z.to_nat j) with
    | Some a => Ok a
    | None => Raise IndexError
    end
  else Raise IndexError.

(** What the constructors accept as a matrix: anything [np.array] turns
    into an array of 0 to 3 dimensions. *)
Inductive array_like : Type :=
| Scalar (x : Qc)
| Vector (v : vec)
| Matrix (m : mat)
| Stack (s : list mat).

Definition np_ndim (a : array_like) : nat :=
  match a with
  | Scalar _ => 0
  | Vector _ => 1
  | Matrix _ => 2
  | Stack _ => 3
  end.

(** A set of points handed to [map]: one point, or one point per row. *)
Inductive points : Type :=
| Point (p : vec)
| Points (m : mat).

(** [np.atleast_2d] *)
Definition atleast_2d (x : points) : mat :=
  match x with
  | Point p => mkmat [p] (List.length p)
  | Points m => m
  end.

(** Modelled from the spec: [_as_homogeneous] of [base.py], which is not
    among the sources.  The spec: it converts an N x D point set into its
    N x (D+1) homogeneous form, a constant 1 appended to every point; a
    single point counts as a set of one.  The spec gives [dim] no further
    role. *)
Definition _as_homogeneous (x : points) (dim : nat) : mat :=
  let xyz := atleast_2d x in
  mkmat (List.map (fun p => p ++ [1]) (rows xyz)) (S (ncols xyz)).

(** ** Effects: a log of events beside the result *)

Inductive event : Type :=
| Warning (msg : string)
| FileWrite (filename text : string)
| MapCoordinates (data : ndarray) (coordinates : mat).

Definition io (A : Type) : Type := (list event * result A)%type.

Definition ret {A : Type} (a : A) : io A := ([], Ok a).
Definition raise {A : Type} (e : exn) : io A := ([], Raise e).
Definition lift {A : Type} (r : result A) : io A := ([], r).
Definition emit (e : event) : io unit := ([e], Ok tt).

Definition iobind {A B : Type} (c : io A) (k : A -> io B) : io B :=
  match c with
  | (l, Ok a) => let (l', r) := k a in (l ++ l', r)
  | (l, Raise e) => (l, Raise e)
  end.

Notation "x <~ c ;; k" := (iobind c (fun x => k))
  (at level 61, c at next level, right associativity) : py_scope.

Fixpoint iomapM {A B : Type} (f : A -> io B) (l : list A) : io (list B) :=
  match l with
  | [] => ret []
  | a :: l' =>
      iobind (f a) (fun b => iobind (iomapM f l') (fun bs => ret (b :: bs)))
  end.

Definition is_interpolation (e : event) : bool :=
  match e with
  | MapCoordinates _ _ => true
  | _ => false
  end.

(** ** The collaborators of [linear.py]

    The reference grids and images of [base.py] and nibabel, the format
    adapters of the [io] package and SciPy's interpolation are used by
    [linear.py], not defined in it.  They are the fields of one interface;
    every call that can fail returns a [result]. *)

(** The LTA structures that [to_filename] fills in for [fmt='fs']. *)
Record LinearTransform (VG : Type) : Type :=
  mkLT { sigma : Qc; m_L : list mat; src : VG; dst : VG }.

Record LinearTransformArray (VG : Type) : Type :=
  mkLTA { lta_type : Z; xforms : list (LinearTransform VG) }.

Inductive adapter : Type :=
| ITKLinearTransform
| ITKLinearTransformArray
| AFNILinearTransform
| AFNILinearTransformArray
| FSLLinearTransform
| FSLLinearTransformArray.

Inductive factory : Type :=
| ITKLinearTransformArray_factory
| LinearTransformArray_factory.

(** The keyword arguments that [apply] hands on to [ndi.map_coordinates]. *)
Record interpolation : Type :=
  mkInterpolation { order : Z; mode : string; cval : Qc; prefilter : bool }.

Class Collaborators : Type := {
  (** [ImageGrid] and [SpatialReference] objects *)
  Reference : Type;
  (** spatial images, and whatever [ImageGrid(...)] accepts *)
  Image : Type;
  Dtype : Type;
  VolumeGeometry : Type;
  (** the constant of [base.py] *)
  EQUALITY_TOL : Qc;
  (** [a != b] on the [_reference] slots, which hold a grid or [None]; the
      comparison is the grid's own and can raise *)
  reference_ne : option Reference -> option Reference -> result bool;
  (** [np.shape(seq)[0]] of a sequence of the given length that NumPy
      cannot read as one regular array (elements of different shapes, or
      objects mixed with arrays): its length for NumPy before 1.24, a
      [ValueError] from 1.24 on *)
  np_shape_ragged : nat -> result nat;
  ImageGrid : Image -> result Reference;
  SpatialReference_factory : Image -> result Reference;
  is_ImageGrid : Reference -> bool;
  ndcoords : Reference -> mat;
  ref_ndim : Reference -> nat;
  ref_shape : Reference -> list nat;
  (** [grid.index(points)] *)
  index : Reference -> mat -> result mat;
  (** [nibabel.loadsave.load] *)
  _nbload : string -> result Image;
  dataobj : Image -> ndarray;
  data_dtype : Image -> Dtype;
  (** [spatialimage.__class__(data, _ref.affine, spatialimage.header)],
      the header's data type then set *)
  new_image : Image -> ndarray -> Reference -> Dtype -> result Image;
  (** [ndi.map_coordinates(data, coordinates, output=..., order=..., ...)] *)
  map_coordinates : ndarray -> mat -> Dtype -> interpolation -> result vec;
  (** [Adapter.from_ras(matrix, moving=..., reference=...)], as the text
      its [to_filename] writes *)
  adapter_text : adapter -> array_like -> option Reference -> option Reference
                 -> result string;
  VolumeGeometry_from_image : option Reference -> result VolumeGeometry;
  lta_to_string : LinearTransformArray VolumeGeometry -> string;
  (** [Factory.from_filename(filename).to_ras(reference=..., moving=...)]:
      the matrices of the file, stacked *)
  read_ras : factory -> string -> option Reference -> option Image
             -> result (list mat)
}.

(** The default of every [fmt] argument. *)
Definition default_fmt : string := "X5".

Local Open Scope py_scope.

(** ** class Affine *)

Module Affine.
Section WithCollaborators.
Context {C : Collaborators}.

Record t : Type := make { _matrix : mat; _reference : option Reference }.

Definition matrix (self : t) : mat := _matrix self.

(** Modelled from the spec: the [reference] property of [TransformBase]
    ([base.py], not among the sources).  The spec: a transform is bound
    optionally to a reference grid; reading the property gives the bound
    grid, assigning it binds one. *)
Definition reference (self : t) : option Reference := _reference self.

(** [Affine(matrix=None, reference=None)] *)
Definition __init__ (matrix : option array_like) (reference : option Reference)
  : result t :=
  let matrix := match matrix with
                | None => Matrix (eye 4)
                | Some m => m
                end in
  match matrix with
  | Matrix m =>
      if negb (Nat.eqb (nrows m) (ncols m))
      then Raise (TypeError "Matrix is not square.")
      else Ok (make m reference)
  | _ => Raise (TypeError "Affine should be 2D.")
  end.

(** [_eq and self._reference != other._reference]: the references are
    compared only when the matrices are close. *)
Definition __eq__ (self other : t) : io bool :=
  _eq <~ lift (allclose EQUALITY_TOL (matrix self) (matrix other)) ;;
  differ <~ (if _eq then lift (reference_ne (_reference self) (_reference other))
             else ret false) ;;
  _ <~ (if differ
        then emit (Warning "Affines are equal, but references do not match.")
        else ret tt) ;;
  ret _eq.

(** [self.map(x, inverse)], with the routine that stands for
    [np.linalg.inv] as the argument [inv]. *)
Definition map_using (inv : mat -> result mat) (self : t) (x : points)
  (inverse : pyobj) : result mat :=
  let affine := _matrix self in
  let coords := transpose (_as_homogeneous x (nrows affine - 1)) in
  affine <- (if is_True inverse then inv (_matrix self) else Ok affine) ;;
  y <- dot affine coords ;;
  Ok (drop_last_column (transpose y)).

Definition map (self : t) (x : points) (inverse : pyobj) : result mat :=
  map_using linalg_inv self x inverse.

Definition to_filename (self : t) (filename fmt : string) (moving : option Image)
  : io string :=
  if str_in (lower fmt) ["itk"; "ants"; "elastix"]%string then
    text <~ lift (adapter_text ITKLinearTransform (Matrix (matrix self)) None None) ;;
    _ <~ emit (FileWrite filename text) ;;
    ret filename
  else
    moving <~ match moving with
              | Some im => g <~ lift (ImageGrid im) ;; ret (Some g)
              | None => ret (reference self)
              end ;;
    if String.eqb (lower fmt) "afni" then
      text <~ lift (adapter_text AFNILinearTransform (Matrix (matrix self))
                      moving (reference self)) ;;
      _ <~ emit (FileWrite filename text) ;;
      ret filename
    else if String.eqb (lower fmt) "fsl" then
      text <~ lift (adapter_text FSLLinearTransform (Matrix (matrix self))
                      moving (reference self)) ;;
      _ <~ emit (FileWrite filename text) ;;
      ret filename
    else if String.eqb (lower fmt) "fs" then
      src <~ lift (VolumeGeometry_from_image moving) ;;
      dst <~ lift (VolumeGeometry_from_image (reference self)) ;;
      let lt := mkLT 1%Qc [matrix self] src dst in
      let lta := mkLTA 1%Z [lt] in
      _ <~ emit (FileWrite filename (lta_to_string lta)) ;;
      ret filename
    else raise NotImplementedError.




End WithCollaborators.
End Affine.

(** ** class LinearTransformsMapping(Affine) *)

Module LinearTransformsMapping.
Section WithCollaborators.
Context {C : Collaborators}.

(** The stacked matrices (an N x (D+1) x (D+1) array) and the shared
    reference. *)
Record t : Type := make { _matrix : list mat; _reference : option Reference }.

Definition matrix (self : t) : list mat := _matrix self.

(** Modelled from the spec: the [reference] property of [TransformBase]
    ([base.py], not among the sources), as for [Affine]. *)
Definition reference (self : t) : option Reference := _reference self.

(** An element of [transforms]: an [Affine], or a raw matrix. *)
Inductive item : Type :=
| Xfm (a : Affine.t)
| Raw (a : array_like).

(** [(xfm if isinstance(xfm, Affine) else Affine(xfm)).matrix] *)
Definition item_matrix (xfm : item) : result mat :=
  match xfm with
  | Xfm a => Ok (Affine.matrix a)
  | Raw m => a <- Affine.__init__ (Some m) None ;; Ok (Affine.matrix a)
  end.

Definition too_few : string :=
  "Transforms should be a list of Affines or linear transforms matrix with at least two elements.".

(** The shape that NumPy finds for an element of [transforms]: that of
    the array for a raw element, none for an [Affine], which is an object
    to NumPy. *)
Definition array_shape (a : array_like) : list nat :=
  match a with
  | Scalar _ => []
  | Vector v => [List.length v]
  | Matrix m => [nrows m; ncols m]
  | Stack s => [List.length s; nrows (hd (mkmat [] 0) s); ncols (hd (mkmat [] 0) s)]
  end.

Definition item_shape (xfm : item) : option (list nat) :=
  match xfm with
  | Xfm _ => None
  | Raw a => Some (array_shape a)
  end.

Definition shape_eqb (a b : option (list nat)) : bool :=
  match a, b with
  | None, None => true
  | Some u, Some v => Nat.eqb (List.length u) (List.length v)
                      && forallb (fun p => Nat.eqb (fst p) (snd p)) (combine u v)
  | _, _ => false
  end.

(** The sequence is one regular array to NumPy: its elements are all
    objects, or all arrays of one shape. *)
Definition regular (transforms : list item) : bool :=
  match transforms with
  | [] => true
  | xfm :: rest => forallb (fun other => shape_eqb (item_shape other) (item_shape xfm)) rest
  end.

(** [np.shape(transforms)[0]]: [np.shape] turns the sequence into an
    array first. *)
Definition np_shape_0 (transforms : list item) : result nat :=
  if regular transforms then Ok (List.length transforms)
  else np_shape_ragged (List.length transforms).

(** [LinearTransformsMapping(transforms, reference=None)] *)
Definition __init__ (transforms : option (list item)) (reference : option Reference)
  : result t :=
  base <- Affine.__init__ None reference ;;
  match transforms with
  | None => Raise (TypeError too_few)
  | Some transforms =>
      n <- np_shape_0 transforms ;;
      if n <? 1 then Raise (TypeError too_few)
      else
        ms <- mapM item_matrix transforms ;;
        stacked <- np_stack ms ;;
        Ok (make stacked (Affine._reference base))
  end.

Definition __getitem__ (self : t) (i : Z) : result Affine.t :=
  m <- py_index (matrix self) i ;;
  Affine.__init__ (Some (Matrix m)) (_reference self).

Definition __len__ (self : t) : nat := List.length (_matrix self).

(** [affine.shape[-1]] of the stack *)
Definition last_axis (affine : list mat) : nat :=
  ncols (hd (mkmat [] 0) affine).

(** [self.map(x, inverse)], with the routine that stands for
    [np.linalg.inv] on one matrix as the argument [inv]; on the stack the
    library inverts matrix by matrix and raises when one of them fails. *)
Definition map_using (inv : mat -> result mat) (self : t) (x : points)
  (inverse : pyobj) : result (list mat) :=
  let affine := matrix self in
  let coords := transpose (_as_homogeneous x (last_axis affine - 1)) in
  affine <- (if is_True inverse then mapM inv affine else Ok affine) ;;
  y <- mapM (fun a => dot a coords) affine ;;
  Ok (List.map transpose y).

Definition map (self : t) (x : points) (inverse : pyobj) : result (list mat) :=
  map_using linalg_inv self x inverse.

Definition to_filename (self : t) (filename fmt : string) (moving : option Image)
  : io string :=
  if str_in (lower fmt) ["itk"; "ants"; "elastix"]%string then
    text <~ lift (adapter_text ITKLinearTransformArray (Stack (matrix self)) None None) ;;
    _ <~ emit (FileWrite filename text) ;;
    ret filename
  else
    moving <~ match moving with
              | Some im => g <~ lift (ImageGrid im) ;; ret (Some g)
              | None => ret (reference self)
              end ;;
    if String.eqb (lower fmt) "afni" then
      text <~ lift (adapter_text AFNILinearTransformArray (Stack (matrix self))
                      moving (reference self)) ;;
      _ <~ emit (FileWrite filename text) ;;
      ret filename
    else if String.eqb (lower fmt) "fsl" then
      text <~ lift (adapter_text FSLLinearTransformArray (Stack (matrix self))
                      moving (reference self)) ;;
      _ <~ emit (FileWrite filename text) ;;
      ret filename
    else if String.eqb (lower fmt) "fs" then
      src <~ lift (VolumeGeometry_from_image moving) ;;
      dst <~ lift (VolumeGeometry_from_image (reference self)) ;;
      let lt := mkLT 1%Qc (matrix self) src dst in
      let lta := mkLTA 1%Z [lt] in
      _ <~ emit (FileWrite filename (lta_to_string lta)) ;;
      ret filename
    else raise NotImplementedError.

(** [spatialimage] and [reference] are given as a path or as an object. *)
Inductive image_arg : Type :=
| Path (p : string)
| Loaded (im : Image).

(** [x = _nbload(str(x))] when [x] is a path. *)
Definition nbload_if_path (x : image_arg) : result Image :=
  match x with
  | Path p => _nbload p
  | Loaded im => Ok im
  end.

Inductive resampled : Type :=
| MovedImage (im : Image)
| Samples (a : ndarray).

Definition timepoints_message (n t : nat) : string :=
  ("Attempting to apply " ++ NilEmpty.string_of_uint (Nat.to_uint n)
   ++ " transforms on a file with " ++ NilEmpty.string_of_uint (Nat.to_uint t)
   ++ " timepoints")%string.

(** One call of [ndi.map_coordinates]. *)
Definition interpolate (data : ndarray) (coordinates : mat) (output : Dtype)
  (how : interpolation) : io vec :=
  _ <~ emit (MapCoordinates data coordinates) ;;
  lift (map_coordinates data coordinates output how).

(** Lines 388 to 402 of [apply]: the reference, the moving image, its data
    and the sample locations in the moving image's grid.  [reference_arg]
    is the argument [reference]. *)
Definition apply_targets (self : t) (spatialimage : image_arg)
  (reference_arg : option image_arg)
  : result (Reference * Image * ndarray * mat) :=
  reference_arg <- match reference_arg with
                   | Some x => im <- nbload_if_path x ;; Ok (Some im)
                   | None => Ok None
                   end ;;
  _ref <- match reference_arg with
          | None => Ok (reference self)
          | Some im => r <- SpatialReference_factory im ;; Ok (Some r)
          end ;;
  spatialimage <- nbload_if_path spatialimage ;;
  let data := squeeze (dataobj spatialimage) in
  _ref <- match _ref with
          | Some r => Ok r
          | None => Raise AttributeError
          end ;;
  ycoords <- map self (Points (transpose (ndcoords _ref))) (PyBool false) ;;
  grid <- ImageGrid spatialimage ;;
  targets <- index grid (_as_homogeneous (Points (vstack ycoords)) (ref_ndim _ref)) ;;
  Ok (_ref, spatialimage, data, targets).

Definition apply (self : t) (spatialimage : image_arg)
  (reference_arg : option image_arg)
  (how : interpolation) (output_dtype : option Dtype) : io resampled :=
  prepared <~ lift (apply_targets self spatialimage reference_arg) ;;
  let '(_ref, spatialimage, data, targets) := prepared in
  let output_dtype := match output_dtype with
                      | Some d => d
                      | None => data_dtype spatialimage
                      end in
  resampled <~
    (if Nat.eqb (ndim data) 4 then
       if negb (Nat.eqb (__len__ self) (last (shape data) 0%nat)) then
         raise (ValueError (timepoints_message (__len__ self) (last (shape data) 0%nat)))
       else
         targets <~ lift (reshape_blocks (__len__ self) targets) ;;
         volumes <~ iomapM (fun t =>
                       tt' <~ lift (py_index targets (Z.of_nat t)) ;;
                       interpolate (take_last_axis t data)
                         (transpose (first_columns (ref_ndim _ref) tt'))
                         output_dtype how)
                     (seq 0 (last (shape data) 0%nat)) ;;
         lift (stack_vectors volumes)
     else if Nat.eqb (ndim data) 2 || Nat.eqb (ndim data) 3 then
       v <~ interpolate data (transpose (first_columns (ref_ndim _ref) targets))
              output_dtype how ;;
       ret (mkarr [List.length v] v)
     else raise UnboundLocalError) ;;
  if is_ImageGrid _ref then
    newdata <~ lift (reshape (__len__ self :: ref_shape _ref) resampled) ;;
    moved <~ lift (new_image spatialimage (moveaxis_first_to_last newdata)
                     _ref output_dtype) ;;
    ret (MovedImage moved)
  else ret (Samples resampled).

End WithCollaborators.
End LinearTransformsMapping.

(** ** [from_filename] and [load] *)

Section Loading.
Context {C : Collaborators}.

(** [filename] between double quotes. *)
Definition quoted (filename : string) : string :=
  (String (ascii_of_nat 34) filename ++ String (ascii_of_nat 34) EmptyString)%string.

(** The class a classmethod is called on. *)
Inductive class : Type :=
| Affine_class
| LinearTransformsMapping_class.

(** An instance of [Affine]: a plain one, or one of its subclass. *)
Inductive transform : Type :=
| Single (a : Affine.t)
| Series (m : LinearTransformsMapping.t).

(** The parser that [from_filename] picks for [fmt]. *)
Definition factory_for (fmt : string) : result factory :=
  if str_in (lower fmt) ["itk"; "ants"; "elastix"]%string
  then Ok ITKLinearTransformArray_factory
  else if str_in (lower fmt) ["lta"; "fs"]%string
  then Ok LinearTransformArray_factory
  else Raise NotImplementedError.

(** [cls.from_filename(filename, fmt, reference, moving)] *)
Definition from_filename (cls : class) (filename fmt : string)
  (reference : option Reference) (moving : option Image) : result transform :=
  _factory <- factory_for fmt ;;
  matrix <- read_ras _factory filename reference moving ;;
  match cls with
  | Affine_class =>
      if negb (Nat.eqb (List.length matrix) 1) then
        Raise (TypeError ("Cannot load transform array " ++ quoted filename))
      else
        m <- py_index matrix 0 ;;
        a <- Affine.__init__ (Some (Matrix m)) reference ;;
        Ok (Single a)
  | LinearTransformsMapping_class =>
      s <- LinearTransformsMapping.__init__
             (Some (List.map (fun m => LinearTransformsMapping.Raw (Matrix m)) matrix))
             reference ;;
      Ok (Series s)
  end.

(** [len(xfm)]: only the mapping defines [__len__]. *)
Definition len (xfm : transform) : result nat :=
  match xfm with
  | Single _ => Raise (TypeError "object of type 'Affine' has no len()")
  | Series s => Ok (LinearTransformsMapping.__len__ s)
  end.

Definition load (filename fmt : string) (reference : option Reference)
  (moving : option Image) : result transform :=
  xfm <- from_filename LinearTransformsMapping_class filename fmt reference moving ;;
  n <- len xfm ;;
  if Nat.eqb n 1 then
    match xfm with
    | Series s => a <- LinearTransformsMapping.__getitem__ s 0 ;; Ok (Single a)
    | Single a => Raise (TypeError "'Affine' object is not subscriptable")
    end
  else Ok xfm.

End Loading.

(** ** Notions used to state the properties *)

(** [a] has a two-sided inverse. *)
Definition invertible (a : mat) : Prop :=
  exists b, wf_mat b /\ dot b a = Ok (eye (nrows a)) /\ dot a b = Ok (eye (nrows a)).

(** The last row of [a] is the homogeneous row [0, ..., 0, 1]. *)
Definition homogeneous_last_row (a : mat) : Prop :=
  last (rows a) [] = unitv (nrows a) (nrows a - 1).

(** What the constructor of [Affine] rejects: an array that is not 2-D, or
    a 2-D array whose two axes differ in length. *)
Definition bad_shape (a : array_like) : Prop :=
  np_ndim a <> 2%nat \/ exists m, a = Matrix m /\ nrows m <> ncols m.

(** Two entries are close: [|a - b| <= atol + rtol * |b|]. *)
Definition close (rtol atol a b : Qc) : Prop :=
  Qcabs (a - b) <= atol + rtol * Qcabs b.

(** Two arrays match within the tolerances: their shapes broadcast, and
    all pairs of entries are close. *)
Definition matrices_match (rtol atol : Qc) (a b : mat) : Prop :=
  exists r c,
    broadcast_dim (nrows a) (nrows b) = Some r /\
    broadcast_dim (ncols a) (ncols b) = Some c /\
    forall i j, (i < r)%nat -> (j < c)%nat -> close rtol atol (bget a i j) (bget b i j).


(** The calls of [ndi.map_coordinates] in a log, in order: the data array
    and the coordinates of each. *)
Definition interpolations (log : list event) : list (ndarray * mat) :=
  flat_map (fun e => match e with
                     | MapCoordinates data coordinates => [(data, coordinates)]
                     | _ => []
                     end) log.

(** The points of [x] taken through the matrix [m] in homogeneous
    coordinates: a 1 is appended to every point, and each row of the
    result is the product of [m] with such a point. *)
Definition through (m : mat) (x : points) : mat :=
  mkmat (List.map (fun p => matvec (rows m) (p ++ [1])) (rows (atleast_2d x))) (nrows m).


(** An [Affine] that its constructor can have built: the matrix is square. *)
Definition constructed {C : Collaborators} (a : Affine.t) : Prop :=
  nrows (Affine.matrix a) = ncols (Affine.matrix a).

(** ** Concrete inputs *)

Definition qz (z : Z) : Qc := Q2Qc (inject_Z z).

(** The translation by (1, 2, 3) of the doctests. *)
Definition translation_123 : mat :=
  mkmat [[qz 1; qz 0; qz 0; qz 1];
         [qz 0; qz 1; qz 0; qz 2];
         [qz 0; qz 0; qz 1; qz 3];
         [qz 0; qz 0; qz 0; qz 1]] 4.

Definition translation_back : mat :=
  mkmat [[qz 1; qz 0; qz 0; qz (-1)];
         [qz 0; qz 1; qz 0; qz (-2)];
         [qz 0; qz 0; qz 1; qz (-3)];
         [qz 0; qz 0; qz 0; qz 1]] 4.



Definition origin : vec := [qz 0; qz 0; qz 0].



(** A 4-D array of two 2 x 2 x 2 volumes, and a 3-D array of one voxel. *)
Definition two_volumes : ndarray := mkarr [2; 2; 2; 2]%nat (repeat (qz 0) 16).
Definition single_voxel : ndarray := mkarr [1; 1; 1]%nat [qz 0].

(** A 4-D array of three 2 x 2 x 2 volumes. *)
Definition three_volumes : ndarray := mkarr [2; 2; 2; 3]%nat (repeat (qz 0) 24).

(** The grid of the single voxel at the origin. *)
Definition one_voxel : mat := mkmat [[qz 0]; [qz 0]; [qz 0]] 1.

(** Collaborators small enough to run: a reference grid is the array of
    its coordinates, an image is its data array, and the files "one.tfm"
    and "two.tfm" hold one and two transforms.  Comparing a grid with
    [None] raises [AttributeError], and a sequence that is not regular is
    refused, as by NumPy 1.24. *)
Definition toy : Collaborators := {|
  Reference := mat;
  Image := ndarray;
  Dtype := unit;
  VolumeGeometry := unit;
  EQUALITY_TOL := Q2Qc (1 # 100000);
  reference_ne := fun a b =>
    match a, b with
    | None, None => Ok false
    | Some x, Some y => Ok (negb (mat_eqb x y))
    | _, _ => Raise AttributeError
    end;
  np_shape_ragged := fun _ => Raise (ValueError "inhomogeneous shape");
  ImageGrid := fun _ => Ok one_voxel;
  SpatialReference_factory := fun _ => Ok one_voxel;
  is_ImageGrid := fun _ => true;
  ndcoords := fun r => r;
  ref_ndim := fun r => nrows r;
  ref_shape := fun r => [ncols r];
  index := fun _ pts => Ok pts;
  _nbload := fun _ => Raise (External "nibabel");
  dataobj := fun im => im;
  data_dtype := fun _ => tt;
  new_image := fun _ data _ _ => Ok data;
  map_coordinates := fun _ coordinates _ _ => Ok (repeat (qz 0) (ncols coordinates));
  adapter_text := fun _ _ _ _ => Ok "transform"%string;
  VolumeGeometry_from_image := fun _ => Ok tt;
  lta_to_string := fun _ => "lta"%string;
  read_ras := fun _ filename _ _ =>
    if String.eqb filename "one.tfm" then Ok [translation_123]
    else if String.eqb filename "two.tfm" then Ok [translation_123; translation_back]
    else Raise (External "io")
|}.

Unset Implicit Arguments.

(** ** Facts on rationals and vectors *)

Lemma Qc_eqb_eq (x y : Qc) : Qc_eqb x y = true <-> x = y.
Proof.
  unfold Qc_eqb. rewrite Qeq_bool_iff. split.
  - apply Qc_is_canon.
  - intros ->. reflexivity.
Qed.

Lemma Qc_eqb_neq (x y : Qc) : Qc_eqb x y = false <-> x <> y.
Proof.
  rewrite <- Qc_eqb_eq. destruct (Qc_eqb x y); split; congruence.
Qed.

Lemma Qc_leb_le (x y : Qc) : Qc_leb x y = true <-> x <= y.
Proof. unfold Qc_leb, Qcle. apply Qle_bool_iff. Qed.

Lemma vec_eqb_eq (u v : vec) : vec_eqb u v = true -> u = v.
Proof.
  revert v. induction u as [|x u IH]; destruct v as [|y v]; simpl; try congruence.
  intros H. apply andb_prop in H. destruct H as [Hx Hv].
  apply Qc_eqb_eq in Hx. f_equal; auto.
Qed.

Lemma rows_eqb_eq (a b : list vec) : rows_eqb a b = true -> a = b.
Proof.
  revert b. induction a as [|r a IH]; destruct b as [|s b]; simpl; try congruence.
  intros H. apply andb_prop in H. destruct H as [Hr Ha].
  apply vec_eqb_eq in Hr. f_equal; auto.
Qed.

Lemma mat_eqb_eq (a b : mat) : mat_eqb a b = true -> a = b.
Proof.
  destruct a as [ra ca], b as [rb cb]. unfold mat_eqb. simpl.
  intros H. apply andb_prop in H. destruct H as [Hr Hc].
  apply rows_eqb_eq in Hr. apply Nat.eqb_eq in Hc. subst. reflexivity.
Qed.

Lemma length_vscale c v : List.length (vscale c v) = List.length v.
Proof. apply length_map. Qed.

Lemma length_vsub u v :
  List.length u = List.length v -> List.length (vsub u v) = List.length u.
Proof.
  revert v. induction u as [|x u IH]; destruct v as [|y v]; simpl; intros H;
    try discriminate; auto.
Qed.

Lemma dotp_nil_r u : dotp u [] = 0.
Proof. destruct u; reflexivity. Qed.

Lemma dotp_vscale_l c u x : dotp (vscale c u) x = c * dotp u x.
Proof.
  revert x. induction u as [|a u IH]; intros [|b x]; simpl; try ring.
  unfold vscale in IH. rewrite IH. ring.
Qed.

Lemma dotp_vsub_l u v x :
  List.length u = List.length v -> dotp (vsub u v) x = dotp u x - dotp v x.
Proof.
  revert v x. induction u as [|a u IH]; intros [|b v] [|c x] H; simpl in *;
    try discriminate; try ring.
  rewrite IH by lia. ring.
Qed.

Lemma dotp_app u1 u2 x1 x2 :
  List.length u1 = List.length x1 ->
  dotp (u1 ++ u2) (x1 ++ x2) = dotp u1 x1 + dotp u2 x2.
Proof.
  revert x1. induction u1 as [|a u1 IH]; intros [|b x1] H; simpl in *;
    try discriminate; try ring.
  rewrite IH by lia. ring.
Qed.

Lemma dotp_repeat0_l n x : dotp (repeat 0 n) x = 0.
Proof.
  revert x. induction n as [|n IH]; intros [|b x]; simpl; try reflexivity.
  rewrite IH. ring.
Qed.

Lemma dotp_repeat0_r n u : dotp u (repeat 0 n) = 0.
Proof.
  revert u. induction n as [|n IH]; intros [|b x]; simpl; try reflexivity.
  rewrite IH. ring.
Qed.

Lemma map_nth_seq {A : Type} (l : list A) (d : A) :
  List.map (fun j => nth j l d) (seq 0 (List.length l)) = l.
Proof.
  apply nth_ext with (d := d) (d' := d).
  - rewrite length_map, length_seq. reflexivity.
  - intros i Hi. rewrite length_map, length_seq in Hi.
    rewrite (nth_indep _ d (nth 0 l d)) by (rewrite length_map, length_seq; exact Hi).
    rewrite (map_nth (fun j => nth j l d) (seq 0 (List.length l)) 0%nat i).
    rewrite seq_nth by exact Hi. reflexivity.
Qed.

Lemma map_seq_nth {A B : Type} (f : A -> B) (l : list A) (d : A) :
  List.map (fun j => f (nth j l d)) (seq 0 (List.length l)) = List.map f l.
Proof.
  rewrite <- (map_nth_seq l d) at 2. rewrite map_map. reflexivity.
Qed.

Lemma unitv_S k j :
  unitv (S k) j = unitv k j ++ [if Nat.eqb j k then 1 else 0].
Proof.
  unfold unitv. rewrite seq_S, map_app. reflexivity.
Qed.

Lemma unitv_out n i s :
  (i < s)%nat \/ (s + n <= i)%nat ->
  List.map (fun j => if Nat.eqb i j then 1 else 0) (seq s n) = repeat 0 n.
Proof.
  revert s. induction n as [|n IH]; intros s H; simpl; [reflexivity|].
  destruct (Nat.eqb_spec i s); [lia|]. f_equal. apply IH. lia.
Qed.

Lemma unitv_self k : unitv k k = repeat 0 k.
Proof. unfold unitv. apply unitv_out. lia. Qed.

Lemma length_unitv n i : List.length (unitv n i) = n.
Proof. unfold unitv. rewrite length_map, length_seq. reflexivity. Qed.

Lemma dotp_indicator n : forall s i x,
  List.length x = n ->
  dotp (List.map (fun j => if Nat.eqb i j then 1 else 0) (seq s n)) x
  = if ((s <=? i)%nat && (i <? s + n)%nat)%bool then nth (i - s) x 0 else 0.
Proof.
  induction n as [|n IH]; intros s i x Hx.
  - simpl. destruct (s <=? i)%nat eqn:E1; simpl; [|reflexivity].
    destruct (i <? s + 0)%nat eqn:E2; [|reflexivity].
    apply Nat.leb_le in E1. apply Nat.ltb_lt in E2. lia.
  - destruct x as [|b x]; [discriminate|]. simpl in Hx.
    cbn [seq List.map dotp]. rewrite IH by lia.
    destruct (Nat.eqb i s) eqn:Eis.
    + apply Nat.eqb_eq in Eis. subst i.
      replace (S s <=? s)%nat with false by (symmetry; apply Nat.leb_gt; lia).
      replace (s <=? s)%nat with true by (symmetry; apply Nat.leb_le; lia).
      replace (s <? s + S n)%nat with true by (symmetry; apply Nat.ltb_lt; lia).
      rewrite Nat.sub_diag. simpl. ring.
    + apply Nat.eqb_neq in Eis.
      destruct (S s <=? i)%nat eqn:E1.
      * apply Nat.leb_le in E1.
        replace (s <=? i)%nat with true by (symmetry; apply Nat.leb_le; lia).
        simpl. replace (i <? s + S n)%nat with (i <? S (s + n))%nat
          by (f_equal; lia).
        destruct (i <? S (s + n))%nat; [|ring].
        replace (i - s)%nat with (S (i - S s)) by lia. simpl. ring.
      * apply Nat.leb_gt in E1.
        replace (s <=? i)%nat with false by (symmetry; apply Nat.leb_gt; lia).
        simpl. ring.
Qed.

Lemma dotp_unitv n i x :
  (i < n)%nat -> List.length x = n -> dotp (unitv n i) x = nth i x 0.
Proof.
  intros Hi Hx. unfold unitv. rewrite dotp_indicator by exact Hx.
  simpl. replace (i <? n)%nat with true by (symmetry; apply Nat.ltb_lt; lia).
  rewrite Nat.sub_0_r. reflexivity.
Qed.

Lemma Qc_one_neq_zero : (1 : Qc) <> 0.
Proof. intros H. apply Qc_eqb_eq in H. vm_compute in H. discriminate. Qed.

Lemma firstn_vscale m c v : firstn m (vscale c v) = vscale c (firstn m v).
Proof. unfold vscale. apply firstn_map. Qed.

Lemma firstn_vsub m : forall u v, firstn m (vsub u v) = vsub (firstn m u) (firstn m v).
Proof.
  induction m as [|m IH]; intros [|a u] [|b v]; simpl; try reflexivity.
  f_equal. apply IH.
Qed.

Lemma firstn_S_nth {A : Type} (k : nat) (l : list A) (d : A) :
  (k < List.length l)%nat -> firstn (S k) l = firstn k l ++ [nth k l d].
Proof.
  revert l. induction k as [|k IH]; intros [|a l] H; simpl in *; try lia.
  - reflexivity.
  - f_equal. apply IH. lia.
Qed.

Lemma split_at_nth {A : Type} (k : nat) (l : list A) (d : A) :
  (k < List.length l)%nat -> l = firstn k l ++ nth k l d :: skipn (S k) l.
Proof.
  revert l. induction k as [|k IH]; intros [|a l] H; simpl in *; try lia.
  - reflexivity.
  - f_equal. apply IH. lia.
Qed.

Lemma nth_vscale k c v : nth k (vscale c v) 0 = c * nth k v 0.
Proof.
  unfold vscale. replace 0 with (c * 0) at 1 by ring. apply map_nth.
Qed.

Lemma vscale_repeat0 c k : vscale c (repeat 0 k) = repeat 0 k.
Proof.
  unfold vscale. induction k as [|k IH]; simpl; [reflexivity|].
  rewrite IH. f_equal. ring.
Qed.

Lemma vsub_repeat0_r u : vsub u (repeat 0 (List.length u)) = u.
Proof.
  induction u as [|a u IH]; simpl; [reflexivity|]. rewrite IH. f_equal. ring.
Qed.

Lemma vsub_app u1 u2 v1 v2 :
  List.length u1 = List.length v1 ->
  vsub (u1 ++ u2) (v1 ++ v2) = vsub u1 v1 ++ vsub u2 v2.
Proof.
  revert v1. induction u1 as [|a u1 IH]; intros [|b v1] H; simpl in *;
    try discriminate; [reflexivity|].
  f_equal. apply IH. lia.
Qed.

Lemma map_fst_combine_eq {A B : Type} (l : list A) (l' : list B) :
  List.length l = List.length l' -> List.map fst (combine l l') = l.
Proof.
  revert l'. induction l as [|a l IH]; intros [|b l'] H; simpl in *;
    try discriminate; [reflexivity|].
  f_equal. apply IH. lia.
Qed.

(** ** Gauss-Jordan elimination computes a left inverse *)

Section Elimination.

Variable n : nat.
Variable A : list vec.

Lemma find_pivot_some k : forall todo p others,
  find_pivot k todo = Some (p, others) ->
  nth k (fst p) 0 <> 0 /\ (forall r, In r todo <-> r = p \/ In r others).
Proof.
  induction todo as [|r rest IH]; intros p others H; simpl in H; [discriminate|].
  destruct (Qc_eqb (nth k (fst r) 0) 0) eqn:E.
  - destruct (find_pivot k rest) as [[p' others']|] eqn:F; [|discriminate].
    injection H as <- <-. destruct (IH _ _ eq_refl) as [Hp Hin].
    split; [exact Hp|]. intros r0. simpl. rewrite Hin. tauto.
  - injection H as <- <-. split.
    + apply Qc_eqb_neq. exact E.
    + intros r0. simpl. split; intros [H|H]; auto.
Qed.

Lemma find_pivot_none k : forall todo,
  find_pivot k todo = None -> Forall (fun r : aug => nth k (fst r) 0 = 0) todo.
Proof.
  induction todo as [|r rest IH]; intros H; simpl in H; [constructor|].
  destruct (Qc_eqb (nth k (fst r) 0) 0) eqn:E; [|discriminate].
  destruct (find_pivot k rest) as [[p' others']|] eqn:F; [discriminate|].
  constructor; [apply Qc_eqb_eq; exact E | apply IH; reflexivity].
Qed.

Lemma row_ok_scale c row : row_ok n A row -> row_ok n A (row_scale c row).
Proof.
  intros (Hl & Hr & Heq). unfold row_ok, row_scale. simpl.
  rewrite !length_vscale. repeat split; auto.
  intros x Hx. rewrite !dotp_vscale_l, Heq by exact Hx. reflexivity.
Qed.

Lemma row_ok_eliminate k p row : row_ok n A p -> row_ok n A row -> row_ok n A (eliminate k p row).
Proof.
  intros (Hpl & Hpr & Hpeq) (Hl & Hr & Heq). unfold row_ok, eliminate, row_sub. simpl.
  rewrite !length_vsub by (rewrite length_vscale; congruence).
  repeat split; auto.
  intros x Hx.
  rewrite !dotp_vsub_l by (rewrite length_vscale; congruence).
  rewrite !dotp_vscale_l, Heq, Hpeq by exact Hx. reflexivity.
Qed.

(** The scaled pivot row starts with [k] zeros and a one. *)
Lemma pivot_prefix k p :
  (k < n)%nat -> row_ok n A p -> firstn k (fst p) = repeat 0 k -> nth k (fst p) 0 <> 0 ->
  firstn (S k) (fst (row_scale (/ nth k (fst p) 0) p)) = repeat 0 k ++ [1].
Proof.
  intros Hk (Hl & _) Hz Hnz. unfold row_scale. cbn [fst snd].
  rewrite (firstn_S_nth k _ 0) by (rewrite length_vscale; lia).
  rewrite firstn_vscale, Hz, vscale_repeat0, nth_vscale.
  f_equal. f_equal. rewrite Qcmult_comm. apply Qcmult_inv_r. exact Hnz.
Qed.

Lemma eliminate_prefix k p row :
  (k < n)%nat -> row_ok n A p -> row_ok n A row ->
  firstn (S k) (fst p) = repeat 0 k ++ [1] ->
  firstn (S k) (fst (eliminate k p row)) = firstn k (fst row) ++ [0].
Proof.
  intros Hk (Hpl & _) (Hl & _) Hp. unfold eliminate, row_sub. cbn [fst snd].
  rewrite firstn_vsub, firstn_vscale, Hp.
  rewrite (firstn_S_nth k (fst row) 0) by lia.
  unfold vscale. rewrite map_app. fold (vscale (nth k (fst row) 0) (repeat 0 k)).
  rewrite vscale_repeat0.
  rewrite vsub_app by (rewrite repeat_length, length_firstn; lia).
  replace k with (List.length (firstn k (fst row))) at 2
    by (rewrite length_firstn; lia).
  rewrite vsub_repeat0_r. simpl. f_equal. f_equal. ring.
Qed.

Lemma kills_eliminate k p row x :
  List.length x = n -> row_ok n A p -> row_ok n A row ->
  kills x p -> kills x (eliminate k p row) -> kills x row.
Proof.
  intros Hx (Hpl & _) (Hl & _) Hp H. unfold kills, eliminate, row_sub in *.
  simpl in H. rewrite dotp_vsub_l in H by (rewrite length_vscale; congruence).
  rewrite dotp_vscale_l, Hp in H.
  rewrite <- H. ring.
Qed.

Lemma kills_scale c p x : c <> 0 -> kills x (row_scale c p) -> kills x p.
Proof.
  intros Hc H. unfold kills, row_scale in *. simpl in H.
  rewrite dotp_vscale_l in H.
  apply Qcmult_integral in H. destruct H; [contradiction | assumption].
Qed.

Lemma gj_step k done todo p others :
  (k < n)%nat -> gj_inv n A k done todo -> find_pivot k todo = Some (p, others) ->
  let p' := row_scale (/ nth k (fst p) 0) p in
  gj_inv n A (S k) (List.map (eliminate k p') done ++ [p']) (List.map (eliminate k p') others).
Proof.
  intros Hk [Hrows Hdone Htodo Hker] Hf p'.
  destruct (find_pivot_some _ _ _ _ Hf) as [Hnz Hin].
  rewrite Forall_app in Hrows. destruct Hrows as [Hrd Hrt].
  rewrite Forall_forall in Hrd, Hrt, Htodo.
  assert (Hp : row_ok n A p) by (apply Hrt, Hin; auto).
  assert (Hp' : row_ok n A p') by (apply row_ok_scale; exact Hp).
  assert (Hpz : firstn k (fst p) = repeat 0 k) by (apply Htodo, Hin; auto).
  assert (Hpre : firstn (S k) (fst p') = repeat 0 k ++ [1])
    by (apply pivot_prefix; auto).
  assert (Hinv : / nth k (fst p) 0 <> 0).
  { intros E. apply Qc_one_neq_zero.
    rewrite <- (Qcmult_inv_r (nth k (fst p) 0) Hnz), E. ring. }
  assert (Hks : forall x, kills x p' -> kills x p)
    by (intros x; apply (kills_scale _ _ _ Hinv)).
  clearbody p'.
  constructor.
  - rewrite !Forall_app. repeat split.
    + rewrite Forall_map, Forall_forall. intros r Hr.
      apply row_ok_eliminate; auto.
    + constructor; [exact Hp' | constructor].
    + rewrite Forall_map, Forall_forall. intros r Hr.
      apply row_ok_eliminate; auto. apply Hrt, Hin. auto.
  - rewrite map_app, map_map, seq_S, map_app. f_equal.
    + transitivity (List.map (fun row : aug => firstn k (fst row) ++ [0]) done).
      * apply map_ext_in. intros r Hr. apply eliminate_prefix; auto.
      * rewrite <- (map_map (fun row : aug => firstn k (fst row)) (fun f => f ++ [0])).
        rewrite Hdone, map_map. apply map_ext_in. intros j Hj.
        apply in_seq in Hj. rewrite unitv_S.
        destruct (Nat.eqb_spec j k); [lia | reflexivity].
    + cbn [List.map Nat.add]. f_equal. etransitivity; [exact Hpre|].
      rewrite unitv_S, unitv_self, Nat.eqb_refl. reflexivity.
  - rewrite Forall_map, Forall_forall. intros r Hr.
    rewrite eliminate_prefix; auto.
    + rewrite (Htodo r) by (apply Hin; auto).
      rewrite <- repeat_cons. reflexivity.
    + apply Hrt, Hin. auto.
  - intros x Hx Hall. apply Hker; [exact Hx|].
    rewrite !Forall_app in Hall. destruct Hall as [[Hd Hpk] Ho].
    rewrite Forall_map in Hd, Ho. rewrite Forall_forall in Hd, Ho.
    pose proof (Forall_inv Hpk) as Hkp'.
    rewrite Forall_app, !Forall_forall. split.
    + intros r Hr. apply (kills_eliminate k p'); auto.
    + intros r Hr. apply Hin in Hr. destruct Hr as [->|Hr].
      * apply Hks. exact Hkp'.
      * apply (kills_eliminate k p'); auto. apply Hrt, Hin. auto.
Qed.

Lemma gj_run : forall steps k done todo d,
  (steps + k = n)%nat -> gj_inv n A k done todo ->
  gauss_jordan steps k done todo = Some d ->
  exists todo', gj_inv n A n d todo'.
Proof.
  induction steps as [|steps IH]; intros k done todo d Hk Hinv H; simpl in H.
  - injection H as <-. simpl in Hk. subst k. exists todo. exact Hinv.
  - destruct (find_pivot k todo) as [[p others]|] eqn:F; [|discriminate].
    assert (Hk1 : (steps + S k = n)%nat) by lia.
    assert (Hk2 : (k < n)%nat) by lia.
    exact (IH _ _ _ _ Hk1 (gj_step k done todo p others Hk2 Hinv F) H).
Qed.

(** With no pivot in column [k], a nonzero vector is sent to zero by every
    row, hence by [A]. *)
Lemma gj_stuck k done todo :
  (k < n)%nat -> gj_inv n A k done todo -> find_pivot k todo = None ->
  exists x, List.length x = n /\ nth k x 0 = 1 /\ Forall (fun a => dotp a x = 0) A.
Proof.
  intros Hk [Hrows Hdone Htodo Hker] Hf.
  apply find_pivot_none in Hf.
  rewrite Forall_app in Hrows. destruct Hrows as [Hrd Hrt].
  assert (Hlen : List.length done = k).
  { apply (f_equal (@List.length _)) in Hdone.
    rewrite !length_map, length_seq in Hdone. exact Hdone. }
  set (c1 := List.map (fun row : aug => - nth k (fst row) 0) done).
  set (x := c1 ++ 1 :: repeat 0 (n - S k)).
  assert (Hc1 : List.length c1 = k) by (unfold c1; rewrite length_map; exact Hlen).
  assert (Hx : List.length x = n).
  { unfold x. rewrite length_app. simpl. rewrite repeat_length. lia. }
  exists x. split; [exact Hx|]. split.
  { unfold x. rewrite app_nth2 by lia. rewrite Hc1, Nat.sub_diag. reflexivity. }
  apply Hker; [exact Hx|].
  rewrite Forall_app. split.
  - rewrite Forall_forall. intros row Hin.
    pose (d0 := (([], []) : aug)).
    destruct (In_nth _ _ d0 Hin) as (j & Hj & Hnth).
    rewrite Forall_forall in Hrd. destruct (Hrd row Hin) as (Hl & _).
    assert (Hpre : firstn k (fst row) = unitv k j).
    { apply (f_equal (fun l => nth j l [])) in Hdone.
      rewrite (nth_indep _ [] (firstn k (fst d0))) in Hdone
        by (rewrite length_map; exact Hj).
      rewrite (map_nth (fun row : aug => firstn k (fst row))) in Hdone.
      rewrite Hnth in Hdone. rewrite Hdone.
      rewrite (nth_indep _ [] (unitv k 0)) by (rewrite length_map, length_seq; lia).
      rewrite (map_nth (unitv k)), seq_nth by lia. reflexivity. }
    unfold kills. rewrite (split_at_nth k (fst row) 0) by lia.
    unfold x. rewrite dotp_app by (rewrite length_firstn; lia).
    simpl. rewrite dotp_repeat0_r, Hpre, dotp_unitv by lia.
    unfold c1. rewrite (nth_indep _ 0 (- nth k (fst d0) 0))
      by (rewrite length_map; exact Hj).
    rewrite (map_nth (fun row : aug => - nth k (fst row) 0)), Hnth. ring.
  - rewrite Forall_forall in *. intros row Hin.
    destruct (Hrt row Hin) as (Hl & _).
    unfold kills. rewrite (split_at_nth k (fst row) 0) by lia.
    unfold x. rewrite dotp_app by (rewrite length_firstn; lia).
    simpl. rewrite dotp_repeat0_r, (Htodo row Hin), dotp_repeat0_l, (Hf row Hin).
    ring.
Qed.

Lemma gj_total : forall steps k done todo,
  (steps + k = n)%nat -> gj_inv n A k done todo ->
  (forall x, List.length x = n -> Forall (fun a => dotp a x = 0) A -> x = repeat 0 n) ->
  gauss_jordan steps k done todo <> None.
Proof.
  induction steps as [|steps IH]; intros k done todo Hk Hinv Hinj; simpl.
  - discriminate.
  - destruct (find_pivot k todo) as [[p others]|] eqn:F.
    + assert (Hk1 : (steps + S k = n)%nat) by lia.
      assert (Hk2 : (k < n)%nat) by lia.
      exact (IH _ _ _ Hk1 (gj_step k done todo p others Hk2 Hinv F) Hinj).
    + exfalso. destruct (@gj_stuck k done todo) as (x & Hx & H1 & Hz); auto; [lia|].
      rewrite (Hinj x Hx Hz) in H1.
      rewrite nth_repeat in H1. apply Qc_one_neq_zero. symmetry. exact H1.
Qed.

End Elimination.

(** ** [np.linalg.inv] returns a left inverse, and returns one whenever
    the matrix is invertible *)


Lemma length_matvec a x : List.length (matvec a x) = List.length a.
Proof. apply length_map. Qed.

Lemma nth_matvec a x j : nth j (matvec a x) 0 = dotp (nth j a []) x.
Proof.
  unfold matvec. change 0 with (dotp [] x) at 1.
  apply (map_nth (fun r => dotp r x)).
Qed.

Lemma gj_init n (A : list vec) :
  Forall (fun a => List.length a = n) A -> List.length A = n ->
  gj_inv n A 0 [] (combine A (rows (eye n))).
Proof.
  intros Hwf Hlen. unfold eye. cbn [rows]. constructor.
  - cbn [app]. rewrite Forall_forall. intros row Hin.
    pose (d0 := (([], []) : aug)).
    destruct (In_nth _ _ d0 Hin) as (j & Hj & Hnth).
    rewrite length_combine, length_map, length_seq, Hlen, Nat.min_id in Hj.
    unfold d0 in Hnth. rewrite combine_nth in Hnth
      by (rewrite length_map, length_seq; exact Hlen).
    rewrite (nth_indep (List.map (unitv n) (seq 0 n)) [] (unitv n 0)) in Hnth
      by (rewrite length_map, length_seq; exact Hj).
    rewrite (map_nth (unitv n)), seq_nth in Hnth by exact Hj.
    subst row. unfold row_ok. cbn [fst snd Nat.add].
    rewrite Forall_forall in Hwf.
    repeat split.
    + apply Hwf, nth_In. lia.
    + apply length_unitv.
    + intros x Hx. rewrite dotp_unitv by (rewrite ?length_matvec; lia).
      rewrite nth_matvec. reflexivity.
  - reflexivity.
  - rewrite Forall_forall. reflexivity.
  - intros x Hx Hall. cbn [app] in Hall.
    rewrite <- (map_fst_combine_eq A (List.map (unitv n) (seq 0 n)))
      by (rewrite length_map, length_seq; exact Hlen).
    rewrite Forall_map. exact Hall.
Qed.

Lemma gj_final n (A : list vec) d todo :
  gj_inv n A n d todo ->
  List.length d = n /\
  Forall (fun r => List.length r = n) (List.map snd d) /\
  forall x, List.length x = n -> matvec (List.map snd d) (matvec A x) = x.
Proof.
  intros [Hrows Hdone _ _].
  rewrite Forall_app in Hrows. destruct Hrows as [Hrd _].
  rewrite Forall_forall in Hrd.
  assert (Hlen : List.length d = n).
  { apply (f_equal (@List.length _)) in Hdone.
    rewrite !length_map, length_seq in Hdone. exact Hdone. }
  assert (Hfst : List.map (fun row : aug => fst row) d = List.map (unitv n) (seq 0 n)).
  { rewrite <- Hdone. apply map_ext_in. intros row Hin.
    destruct (Hrd row Hin) as (Hl & _). rewrite <- Hl. symmetry. apply firstn_all. }
  split; [exact Hlen|]. split.
  - rewrite Forall_map, Forall_forall. intros row Hin. apply (Hrd row Hin).
  - intros x Hx. unfold matvec at 1. rewrite map_map.
    transitivity (List.map (fun row : aug => dotp (fst row) x) d).
    + apply map_ext_in. intros row Hin. destruct (Hrd row Hin) as (_ & _ & Heq).
      symmetry. apply Heq. exact Hx.
    + rewrite <- (map_map (fun row : aug => fst row) (fun l => dotp l x)), Hfst, map_map.
      transitivity (List.map (fun j => nth j x 0) (seq 0 n)).
      * apply map_ext_in. intros j Hj. apply in_seq in Hj.
        apply dotp_unitv; lia.
      * rewrite <- Hx. apply map_nth_seq.
Qed.

Theorem linalg_inv_left_inverse n (a b : mat) :
  square n a -> linalg_inv a = Ok b ->
  square n b /\
  forall x, List.length x = n -> matvec (rows b) (matvec (rows a) x) = x.
Proof.
  intros (Hwf & Hr & Hc) H. unfold linalg_inv in H.
  rewrite Hr, Hc, Nat.eqb_refl in H.
  destruct (gauss_jordan n 0 [] (combine (rows a) (rows (eye n)))) as [d|] eqn:G;
    [|discriminate].
  injection H as <-.
  assert (Hinit : gj_inv n (rows a) 0 [] (combine (rows a) (rows (eye n)))).
  { apply gj_init; [|exact Hr]. unfold wf_mat in Hwf. rewrite Hc in Hwf. exact Hwf. }
  destruct (gj_run n (rows a) n 0 [] _ d (Nat.add_0_r n) Hinit G) as (todo' & Hfin).
  destruct (gj_final n (rows a) d todo' Hfin) as (Hlen & Hrows & Hinv).
  split; [|exact Hinv].
  unfold square, wf_mat, nrows. simpl. rewrite length_map. auto.
Qed.

Theorem linalg_inv_total n (a : mat) :
  square n a ->
  (forall x, List.length x = n -> Forall (fun r => dotp r x = 0) (rows a) ->
             x = repeat 0 n) ->
  exists b, linalg_inv a = Ok b.
Proof.
  intros (Hwf & Hr & Hc) Hinj. unfold linalg_inv.
  rewrite Hr, Hc, Nat.eqb_refl.
  assert (Hinit : gj_inv n (rows a) 0 [] (combine (rows a) (rows (eye n)))).
  { apply gj_init; [|exact Hr]. unfold wf_mat in Hwf. rewrite Hc in Hwf. exact Hwf. }
  pose proof (gj_total n (rows a) n 0 [] _ (Nat.add_0_r n) Hinit Hinj) as Hnone.
  destruct (gauss_jordan n 0 [] (combine (rows a) (rows (eye n)))) as [d|];
    [eexists; reflexivity | congruence].
Qed.

Lemma dotp_map_linear (s : list nat) (f g : nat -> Qc) (c : Qc) : forall x,
  dotp (List.map (fun j => c * f j + g j) s) x
  = c * dotp (List.map f s) x + dotp (List.map g s) x.
Proof.
  induction s as [|j s IH]; intros [|b x]; simpl; try ring.
  rewrite IH. ring.
Qed.

Lemma dotp_map_zero (s : list nat) : forall x, dotp (List.map (fun _ => 0) s) x = 0.
Proof.
  induction s as [|j s IH]; intros [|b x]; simpl; try reflexivity.
  rewrite IH. ring.
Qed.

(** (b . A) . x = b . (A x) *)
Lemma dotp_assoc n (rs : list vec) : forall (b x : vec),
  Forall (fun r => List.length r = n) rs -> List.length x = n ->
  dotp (List.map (fun j => dotp b (column j rs)) (seq 0 n)) x = dotp b (matvec rs x).
Proof.
  induction rs as [|r rs IH]; intros b x Hwf Hx.
  - cbn [matvec List.map]. rewrite dotp_nil_r.
    rewrite (map_ext (fun j => dotp b (column j [])) (fun _ => 0))
      by (intros; apply dotp_nil_r).
    apply dotp_map_zero.
  - destruct b as [|b0 b].
    + simpl. apply dotp_map_zero.
    + pose proof (Forall_inv Hwf) as Hr. pose proof (Forall_inv_tail Hwf) as Hrs.
      cbn beta in Hr.
      change (dotp (b0 :: b) (matvec (r :: rs) x))
        with (b0 * dotp r x + dotp b (matvec rs x)).
      change (List.map (fun j => dotp (b0 :: b) (column j (r :: rs))) (seq 0 n))
        with (List.map (fun j => b0 * nth j r 0 + dotp b (column j rs)) (seq 0 n)).
      rewrite (dotp_map_linear (seq 0 n) (fun j => nth j r 0)
                 (fun j => dotp b (column j rs)) b0 x).
      rewrite <- Hr at 1. rewrite map_nth_seq, (IH b x Hrs Hx). reflexivity.
Qed.

Lemma left_inverse_cancels n (a b : mat) :
  square n a -> dot b a = Ok (eye n) ->
  forall x, List.length x = n -> matvec (rows b) (matvec (rows a) x) = x.
Proof.
  intros (Hwf & Hr & Hc) H x Hx. unfold dot in H.
  destruct (Nat.eqb (ncols b) (nrows a)); [|discriminate].
  injection H as Hrows _. simpl in Hrows.
  rewrite Hc in Hrows.
  unfold matvec at 1.
  transitivity (List.map (fun u => dotp u x)
                  (List.map (fun r => List.map (fun c => dotp r c)
                     (List.map (fun j => column j (rows a)) (seq 0 n))) (rows b))).
  - rewrite map_map. apply map_ext. intros r. rewrite map_map.
    symmetry. apply dotp_assoc; [|exact Hx].
    unfold wf_mat in Hwf. rewrite Hc in Hwf. exact Hwf.
  - rewrite Hrows, map_map.
    transitivity (List.map (fun j => nth j x 0) (seq 0 n)).
    + apply map_ext_in. intros j Hj. apply in_seq in Hj. apply dotp_unitv; lia.
    + rewrite <- Hx. apply map_nth_seq.
Qed.

Lemma matvec_zero (b : list vec) m : matvec b (repeat 0 m) = repeat 0 (List.length b).
Proof.
  induction b as [|r b IH]; simpl; [reflexivity|].
  rewrite dotp_repeat0_r. f_equal. exact IH.
Qed.

Lemma Forall_eq_repeat {A : Type} (f : A -> Qc) (l : list A) :
  Forall (fun a => f a = 0) l -> List.map f l = repeat 0 (List.length l).
Proof.
  induction 1 as [|a l Ha _ IH]; simpl; [reflexivity|]. rewrite Ha, IH. reflexivity.
Qed.

Theorem linalg_inv_of_invertible n (a : mat) :
  square n a -> invertible a -> exists b, linalg_inv a = Ok b.
Proof.
  intros Hsq (b & Hb & Hba & _). apply (linalg_inv_total n a Hsq).
  intros x Hx Hz.
  assert (Hn : nrows a = n) by apply Hsq. rewrite Hn in Hba.
  rewrite <- (left_inverse_cancels n a b Hsq Hba x Hx).
  unfold matvec at 2. rewrite (Forall_eq_repeat (fun r => dotp r x)) by exact Hz.
  rewrite matvec_zero.
  unfold dot in Hba. destruct (Nat.eqb (ncols b) (nrows a)); [|discriminate].
  injection Hba as Hrows _. apply (f_equal (@List.length _)) in Hrows.
  simpl in Hrows. rewrite !length_map, length_seq in Hrows.
  rewrite Hrows. reflexivity.
Qed.

(** ** Transposition and [dot] *)

Lemma nth_column (j i : nat) (rs : list vec) :
  nth i (column j rs) 0 = nth j (nth i rs []) 0.
Proof.
  unfold column.
  replace 0 with (nth j (@nil Qc) 0) at 1 by (destruct j; reflexivity).
  apply (map_nth (fun r => nth j r 0)).
Qed.

Lemma transpose_involutive (h : mat) : wf_mat h -> transpose (transpose h) = h.
Proof.
  destruct h as [rs c]. unfold wf_mat, transpose, nrows. cbn [rows ncols].
  intros Hwf. rewrite length_map, length_seq. f_equal.
  transitivity (List.map (fun i => nth i rs []) (seq 0 (List.length rs))).
  - apply map_ext_in. intros i Hi. apply in_seq in Hi.
    unfold column at 1. rewrite map_map.
    rewrite (map_ext (fun j => nth i (column j rs) 0) (fun j => nth j (nth i rs []) 0))
      by (intros; apply nth_column).
    rewrite Forall_forall in Hwf.
    rewrite <- (Hwf (nth i rs [])) by (apply nth_In; lia).
    apply map_nth_seq.
  - apply map_nth_seq.
Qed.

Lemma dot_transpose (m h : mat) :
  wf_mat h -> ncols m = ncols h ->
  dot m (transpose h)
  = Ok (mkmat (List.map (fun a => List.map (fun p => dotp a p) (rows h)) (rows m))
          (nrows h)).
Proof.
  intros Hwf Hc. unfold dot. rewrite (transpose_involutive h Hwf).
  unfold transpose at 1 2, nrows. cbn [rows ncols].
  rewrite length_map, length_seq, Hc, Nat.eqb_refl. reflexivity.
Qed.

Lemma transpose_outer (f : vec -> vec -> Qc) (xs ps : list vec) :
  transpose (mkmat (List.map (fun a => List.map (fun p => f a p) ps) xs) (List.length ps))
  = mkmat (List.map (fun p => List.map (fun a => f a p) xs) ps) (List.length xs).
Proof.
  unfold transpose, nrows. cbn [rows ncols]. rewrite length_map. f_equal.
  rewrite <- (map_seq_nth (fun p => List.map (fun a => f a p) xs) ps []).
  apply map_ext_in. intros j Hj. apply in_seq in Hj.
  unfold column. rewrite map_map. apply map_ext. intros a.
  rewrite (nth_indep _ 0 (f a [])) by (rewrite length_map; lia).
  apply (map_nth (fun p => f a p)).
Qed.

(** Evaluates a closed equation between results that hold a matrix. *)
Ltac eval_mat :=
  vm_compute;
  match goal with
  | |- Ok _ = Ok _ => apply f_equal; apply mat_eqb_eq; vm_compute; reflexivity
  | |- _ => reflexivity
  end.

Lemma wf_as_homogeneous (x : points) (dim : nat) :
  wf_mat (atleast_2d x) -> wf_mat (_as_homogeneous x dim).
Proof.
  unfold wf_mat, _as_homogeneous. cbn [rows ncols]. intros H.
  rewrite Forall_map. rewrite Forall_forall in *. intros p Hp.
  rewrite length_app, (H p Hp). simpl. lia.
Qed.

Lemma map_points (m : mat) (x : points) (dim : nat) :
  wf_mat (atleast_2d x) -> ncols m = S (ncols (atleast_2d x)) ->
  (y <- dot m (transpose (_as_homogeneous x dim)) ;; Ok (drop_last_column (transpose y)))
  = Ok (mkmat (List.map (fun p => removelast (matvec (rows m) (p ++ [1])))
                 (rows (atleast_2d x)))
          (Nat.pred (nrows m))).
Proof.
  intros Hwf Hc.
  rewrite (dot_transpose m (_as_homogeneous x dim) (wf_as_homogeneous x dim Hwf) Hc).
  cbn [rbind]. unfold nrows at 1. rewrite transpose_outer.
  unfold drop_last_column, _as_homogeneous. cbn [rows ncols].
  rewrite !map_map. reflexivity.
Qed.

(** With the homogeneous last row, the image of a homogeneous point is
    homogeneous again. *)
Lemma matvec_homogeneous (n : nat) (a : mat) (p : vec) :
  square (S n) a -> homogeneous_last_row a -> List.length p = n ->
  removelast (matvec (rows a) (p ++ [1])) ++ [1] = matvec (rows a) (p ++ [1]).
Proof.
  intros (Hwf & Hr & Hc) Hlast Hp. unfold homogeneous_last_row in Hlast.
  rewrite Hr in Hlast. replace (S n - 1)%nat with n in Hlast by lia.
  assert (Hne : rows a <> []) by (unfold nrows in Hr; destruct (rows a); discriminate).
  rewrite (app_removelast_last [] Hne), Hlast.
  unfold matvec. rewrite map_app. cbn [List.map].
  rewrite removelast_last.
  rewrite dotp_unitv by (rewrite ?length_app; simpl; lia).
  rewrite app_nth2 by lia. rewrite Hp, Nat.sub_diag. reflexivity.
Qed.

(** ** Further facts on [mapM], indexing and products *)

Lemma mapM_Forall2 {A B : Type} (f : A -> result B) (l : list A) : forall l',
  mapM f l = Ok l' -> Forall2 (fun a b => f a = Ok b) l l'.
Proof.
  induction l as [|a l IH]; intros l' H; simpl in H.
  - injection H as <-. constructor.
  - destruct (f a) as [b|e] eqn:Fa; [|discriminate].
    destruct (mapM f l) as [bs|e] eqn:Fl; [|discriminate].
    injection H as <-. constructor; [exact Fa | apply IH; reflexivity].
Qed.

Lemma mapM_ext_in {A B : Type} (f g : A -> result B) (l : list A) :
  (forall a, In a l -> f a = g a) -> mapM f l = mapM g l.
Proof.
  induction l as [|a l IH]; intros H; [reflexivity|].
  simpl. rewrite (H a (or_introl eq_refl)), IH; [reflexivity|].
  intros b Hb. apply H. right. exact Hb.
Qed.

Lemma mapM_Ok {A B : Type} (g : A -> B) (l : list A) :
  mapM (fun a => Ok (g a)) l = Ok (List.map g l).
Proof. induction l as [|a l IH]; simpl; [|rewrite IH]; reflexivity. Qed.

Lemma Forall2_nth_error_r {A B : Type} (R : A -> B -> Prop) (l : list A) (l' : list B) :
  Forall2 R l l' -> forall i b, nth_error l' i = Some b ->
  exists a, nth_error l i = Some a /\ R a b.
Proof.
  induction 1 as [|a b l l' Hab _ IH]; intros i c Hi.
  - destruct i; discriminate.
  - destruct i as [|i]; simpl in Hi.
    + injection Hi as <-. exists a. split; [reflexivity | exact Hab].
    + apply IH. exact Hi.
Qed.

Lemma py_index_nat {A : Type} (l : list A) (i : nat) (a : A) :
  nth_error l i = Some a -> py_index l (Z.of_nat i) = Ok a.
Proof.
  intros H. unfold py_index.
  assert (Hi : (i < List.length l)%nat) by (apply nth_error_Some; congruence).
  replace (Z.of_nat i <? 0)%Z with false by (symmetry; apply Z.ltb_ge; lia).
  replace (0 <=? Z.of_nat i)%Z with true by (symmetry; apply Z.leb_le; lia).
  replace (Z.of_nat i <? Z.of_nat (List.length l))%Z with true
    by (symmetry; apply Z.ltb_lt; lia).
  cbn [andb]. rewrite Nat2Z.id, H. reflexivity.
Qed.

Lemma matvec_eye (n : nat) (x : vec) :
  List.length x = n -> matvec (rows (eye n)) x = x.
Proof.
  intros Hx. unfold eye, matvec. cbn [rows]. rewrite map_map.
  transitivity (List.map (fun j => nth j x 0) (seq 0 n)).
  - apply map_ext_in. intros j Hj. apply in_seq in Hj. apply dotp_unitv; lia.
  - rewrite <- Hx. apply map_nth_seq.
Qed.

Lemma length_removelast_vec (l : vec) :
  List.length (removelast l) = Nat.pred (List.length l).
Proof.
  destruct l as [|q l]; [reflexivity|].
  rewrite (app_removelast_last 0 (l := q :: l)) at 2 by discriminate.
  rewrite length_app. simpl. lia.
Qed.

(** The rows of [dot b a], applied to a vector. *)
Lemma matvec_dot (n : nat) (a b c : mat) (x : vec) :
  wf_mat a -> ncols a = n -> List.length x = n -> dot b a = Ok c ->
  matvec (rows c) x = matvec (rows b) (matvec (rows a) x).
Proof.
  intros Hwf Hc Hx H. unfold dot in H.
  destruct (Nat.eqb (ncols b) (nrows a)); [|discriminate].
  injection H as <-. cbn [rows]. unfold matvec at 1 2. rewrite map_map.
  apply map_ext. intros r. unfold transpose. cbn [rows]. rewrite map_map, Hc.
  apply dotp_assoc; [|exact Hx].
  unfold wf_mat in Hwf. rewrite Hc in Hwf. exact Hwf.
Qed.

(** The stack that [LinearTransformsMapping.map] returns for matrices that
    fit the points. *)
Lemma dot_each (ms : list mat) (h : mat) :
  wf_mat h -> Forall (fun m => ncols m = ncols h) ms ->
  (y <- mapM (fun a => dot a (transpose h)) ms ;; Ok (List.map transpose y))
  = Ok (List.map (fun m => mkmat (List.map (fun p => matvec (rows m) p) (rows h))
                             (nrows m)) ms).
Proof.
  intros Hwf Hall.
  rewrite (mapM_ext_in _
             (fun m => Ok (mkmat (List.map (fun a => List.map (fun p => dotp a p) (rows h))
                                    (rows m)) (nrows h)))).
  - rewrite mapM_Ok. cbn [rbind]. rewrite map_map. f_equal.
    apply map_ext. intros m. unfold nrows. apply transpose_outer.
  - intros m Hm. rewrite Forall_forall in Hall. apply dot_transpose; auto.
Qed.


(** [Affine.map] and [LinearTransformsMapping.map] past the choice of the
    matrix: the points go [through] it. *)
Lemma map_points_through (m : mat) (x : points) (dim : nat) :
  wf_mat (atleast_2d x) -> ncols m = S (ncols (atleast_2d x)) ->
  (y <- dot m (transpose (_as_homogeneous x dim)) ;; Ok (drop_last_column (transpose y)))
  = Ok (drop_last_column (through m x)).
Proof.
  intros Hwf Hc. rewrite (map_points m x dim Hwf Hc).
  unfold drop_last_column, through. cbn [rows ncols]. rewrite map_map. reflexivity.
Qed.

Lemma dot_each_through (ms : list mat) (x : points) (dim : nat) :
  wf_mat (atleast_2d x) -> Forall (fun m => ncols m = S (ncols (atleast_2d x))) ms ->
  (y <- mapM (fun a => dot a (transpose (_as_homogeneous x dim))) ms ;;
   Ok (List.map transpose y))
  = Ok (List.map (fun m => through m x) ms).
Proof.
  intros Hwf Hall.
  rewrite (dot_each ms (_as_homogeneous x dim) (wf_as_homogeneous x dim Hwf) Hall).
  f_equal. apply map_ext. intros m. unfold through, _as_homogeneous. cbn [rows].
  rewrite map_map. reflexivity.
Qed.

Section MapProperties.
Context {C : Collaborators}.

Lemma Affine_init_default (reference : option Reference) :
  Affine.__init__ None reference = Ok (Affine.make (eye 4) reference).
Proof. reflexivity. Qed.

Lemma Affine_init_matrix (m : mat) (reference : option Reference) :
  Affine.__init__ (Some (Matrix m)) reference
  = if Nat.eqb (nrows m) (ncols m) then Ok (Affine.make m reference)
    else Raise (TypeError "Matrix is not square.").
Proof.
  unfold Affine.__init__. destruct (Nat.eqb (nrows m) (ncols m)); reflexivity.
Qed.

Lemma Mapping_init_some (transforms : list LinearTransformsMapping.item)
  (reference : option Reference) :
  LinearTransformsMapping.__init__ (Some transforms) reference
  = (n <- LinearTransformsMapping.np_shape_0 transforms ;;
     if n <? 1
     then Raise (TypeError LinearTransformsMapping.too_few)
     else (ms <- mapM LinearTransformsMapping.item_matrix transforms ;;
           stacked <- np_stack ms ;;
           Ok (LinearTransformsMapping.make stacked reference))).
Proof. reflexivity. Qed.

(** On a sequence that NumPy reads as one array, [np.shape] gives the
    length. *)
Lemma Mapping_init_regular (transforms : list LinearTransformsMapping.item)
  (reference : option Reference) :
  LinearTransformsMapping.regular transforms = true ->
  LinearTransformsMapping.__init__ (Some transforms) reference
  = if List.length transforms <? 1
    then Raise (TypeError LinearTransformsMapping.too_few)
    else (ms <- mapM LinearTransformsMapping.item_matrix transforms ;;
          stacked <- np_stack ms ;;
          Ok (LinearTransformsMapping.make stacked reference)).
Proof.
  intros H. rewrite Mapping_init_some. unfold LinearTransformsMapping.np_shape_0.
  rewrite H. reflexivity.
Qed.

Lemma shape_eqb_refl (a : option (list nat)) : LinearTransformsMapping.shape_eqb a a = true.
Proof.
  destruct a as [u|]; [|reflexivity]. cbn [LinearTransformsMapping.shape_eqb].
  rewrite Nat.eqb_refl. cbn [andb].
  induction u as [|d u IH]; [reflexivity|].
  cbn [combine forallb fst snd]. rewrite Nat.eqb_refl, IH. reflexivity.
Qed.

(** Raw square matrices of one size form a regular sequence. *)
Lemma regular_raw_matrices (n : nat) (ms : list mat) :
  Forall (fun m => nrows m = n /\ ncols m = n) ms ->
  LinearTransformsMapping.regular
    (List.map (fun m => LinearTransformsMapping.Raw (Matrix m)) ms) = true.
Proof.
  intros H. destruct ms as [|m ms]; [reflexivity|].
  cbn [List.map LinearTransformsMapping.regular].
  apply forallb_forall. intros t Ht. apply in_map_iff in Ht.
  destruct Ht as (m' & <- & Hin).
  pose proof (Forall_inv H) as [Hr Hc]. pose proof (Forall_inv_tail H) as Hrest.
  rewrite Forall_forall in Hrest. destruct (Hrest m' Hin) as [Hr' Hc'].
  cbn [LinearTransformsMapping.item_shape LinearTransformsMapping.array_shape].
  rewrite Hr, Hc, Hr', Hc'. apply shape_eqb_refl.
Qed.

(** C1. [LinearTransformsMapping([T]).map(P, inverse)] and
    [Affine(T).map(P, inverse)] hold the same coordinates: the mapping's
    result has one entry, and its first D columns are the Affine's result.
    The two constructions and the two calls also fail alike. *)
Theorem singleton_mapping_map_agrees (T : array_like) (reference : option Reference)
  (x : points) (inverse : pyobj) :
  (s <- LinearTransformsMapping.__init__ (Some [LinearTransformsMapping.Raw T]) reference ;;
   ys <- LinearTransformsMapping.map s x inverse ;;
   Ok (List.map drop_last_column ys))
  = (a <- Affine.__init__ (Some T) reference ;;
     y <- Affine.map a x inverse ;;
     Ok [y]).
Proof.
  rewrite Mapping_init_regular by reflexivity.
  cbn [List.length Nat.ltb Nat.leb mapM LinearTransformsMapping.item_matrix].
  destruct T as [q|v|m|s]; try reflexivity.
  rewrite !Affine_init_matrix.
  destruct (Nat.eqb (nrows m) (ncols m)); [|reflexivity].
  cbn [rbind mapM Affine.matrix Affine._matrix np_stack forallb].
  unfold LinearTransformsMapping.map, Affine.map,
    LinearTransformsMapping.map_using, Affine.map_using.
  cbn [LinearTransformsMapping.matrix LinearTransformsMapping._matrix Affine._matrix].
  unfold _as_homogeneous.
  destruct (is_True inverse).
  - cbn [mapM]. destruct (linalg_inv m) as [mi|e]; [|reflexivity].
    cbn [rbind mapM].
    destruct (dot mi _) as [y|e]; reflexivity.
  - cbn [rbind mapM]. destruct (dot m _) as [y|e]; reflexivity.
Qed.

(** C2. Scenario A: the translation by (1, 2, 3) sends the origin to
    [[1, 2, 3]], and with [inverse=True] to [[-1, -2, -3]]. *)
Theorem translation_maps_origin :
  (xfm <- Affine.__init__ (Some (Matrix translation_123)) None ;;
   Affine.map xfm (Point origin) (PyBool false))
  = Ok (mkmat [[qz 1; qz 2; qz 3]] 3)
  /\
  (xfm <- Affine.__init__ (Some (Matrix translation_123)) None ;;
   Affine.map xfm (Point origin) (PyBool true))
  = Ok (mkmat [[qz (-1); qz (-2); qz (-3)]] 3).
Proof. split; eval_mat. Qed.


(** C10. [map] compares [inverse] with [True] by identity.  With any
    other value, truthy ones such as the integer 1 included, the inversion
    routine is not consulted and the points go through the matrix itself;
    with the boolean [True] the routine is called, the points go through
    the matrix it returns, and its exception is that of [map].  For an
    [Affine] and for a mapping, whatever the routine is. *)
Theorem map_inverts_only_on_True (inv : mat -> result mat) (a : Affine.t)
  (s : LinearTransformsMapping.t) (x : points) (inverse : pyobj) :
  inverse <> PyBool true ->
  (forall inv' : mat -> result mat,
     Affine.map_using inv a x inverse = Affine.map_using inv' a x (PyBool false) /\
     LinearTransformsMapping.map_using inv s x inverse
     = LinearTransformsMapping.map_using inv' s x (PyBool false)) /\
  (wf_mat (atleast_2d x) -> ncols (Affine.matrix a) = S (ncols (atleast_2d x)) ->
   Affine.map_using inv a x inverse
   = Ok (drop_last_column (through (Affine.matrix a) x))) /\
  (wf_mat (atleast_2d x) ->
   Forall (fun m => ncols m = S (ncols (atleast_2d x))) (LinearTransformsMapping.matrix s) ->
   LinearTransformsMapping.map_using inv s x inverse
   = Ok (List.map (fun m => through m x) (LinearTransformsMapping.matrix s))) /\
  (forall b, inv (Affine.matrix a) = Ok b ->
   wf_mat (atleast_2d x) -> ncols b = S (ncols (atleast_2d x)) ->
   Affine.map_using inv a x (PyBool true) = Ok (drop_last_column (through b x))) /\
  (forall e, inv (Affine.matrix a) = Raise e ->
   Affine.map_using inv a x (PyBool true) = Raise e) /\
  (forall bs, mapM inv (LinearTransformsMapping.matrix s) = Ok bs ->
   wf_mat (atleast_2d x) -> Forall (fun b => ncols b = S (ncols (atleast_2d x))) bs ->
   LinearTransformsMapping.map_using inv s x (PyBool true)
   = Ok (List.map (fun b => through b x) bs)) /\
  (forall e, mapM inv (LinearTransformsMapping.matrix s) = Raise e ->
   LinearTransformsMapping.map_using inv s x (PyBool true) = Raise e).
Proof.
  intros Hne.
  assert (E : is_True inverse = false).
  { destruct inverse as [|[|]|z|q|t]; try reflexivity. congruence. }
  unfold Affine.map_using, LinearTransformsMapping.map_using, Affine.matrix,
    LinearTransformsMapping.matrix.
  rewrite E. cbn [is_True rbind].
  split; [intros inv'; split; reflexivity|].
  split; [intros Hwf Hc; apply (map_points_through _ x _ Hwf Hc)|].
  split; [intros Hwf Hall; apply (dot_each_through _ x _ Hwf Hall)|].
  split; [intros b Hb Hwf Hc; rewrite Hb; cbn [rbind];
          apply (map_points_through b x _ Hwf Hc)|].
  split; [intros e He; rewrite He; reflexivity|].
  split; [intros bs Hbs Hwf Hall; rewrite Hbs; cbn [rbind];
          apply (dot_each_through bs x _ Hwf Hall)|].
  intros e He. rewrite He. reflexivity.
Qed.

End MapProperties.




(** C10, on a concrete input: the integer 1 is truthy and is not [True];
    with it the origin goes through the translation, and with [True]
    through the translation back. *)
Lemma map_integer_one_is_forward :
  truthy (PyInt 1) = true /\
  Affine.map (C := toy) (Affine.make translation_123 None) (Point origin) (PyInt 1)
  = Ok (drop_last_column (through translation_123 (Point origin))) /\
  LinearTransformsMapping.map (C := toy)
    (LinearTransformsMapping.make [translation_123; translation_back] None)
    (Point origin) (PyInt 1)
  = Ok (List.map (fun m => through m (Point origin)) [translation_123; translation_back]) /\
  Affine.map (C := toy) (Affine.make translation_123 None) (Point origin) (PyBool true)
  = Ok (drop_last_column (through translation_back (Point origin))).
Proof.
  destruct (map_inverts_only_on_True (C := toy) linalg_inv
              (Affine.make translation_123 None)
              (LinearTransformsMapping.make [translation_123; translation_back] None)
              (Point origin) (PyInt 1))
    as (_ & Hforward & Hmapping & Hinverse & _); [discriminate|].
  assert (Hwf : wf_mat (atleast_2d (Point origin))) by (unfold wf_mat; repeat constructor).
  split; [reflexivity|]. split; [|split].
  - apply Hforward; [exact Hwf | reflexivity].
  - apply Hmapping; [exact Hwf | repeat constructor].
  - apply Hinverse; [eval_mat | exact Hwf | reflexivity].
Defined.

(** The two results of the witness, evaluated. *)
Example through_translations :
  drop_last_column (through translation_123 (Point origin)) = mkmat [[qz 1; qz 2; qz 3]] 3 /\
  drop_last_column (through translation_back (Point origin))
  = mkmat [[qz (-1); qz (-2); qz (-3)]] 3.
Proof. split; apply mat_eqb_eq; vm_compute; reflexivity. Qed.

(** With [inverse=1] the translation moves the origin forward. *)
Example map_integer_one_translates :
  Affine.map (C := toy) (Affine.make translation_123 None) (Point origin) (PyInt 1)
  = Ok (mkmat [[qz 1; qz 2; qz 3]] 3).
Proof. eval_mat. Qed.

Lemma allclose_true_iff (rtol : Qc) (a b : mat) :
  allclose rtol a b = Ok true <-> matrices_match rtol atol_default a b.
Proof.
  unfold allclose, matrices_match. split.
  - destruct (broadcast_dim (nrows a) (nrows b)) as [r|]; [|discriminate].
    destruct (broadcast_dim (ncols a) (ncols b)) as [c|]; [|discriminate].
    intros H. injection H as H. exists r, c. repeat split.
    intros i j Hi Hj. rewrite forallb_forall in H.
    specialize (H i (proj2 (in_seq r 0 i) ltac:(lia))).
    rewrite forallb_forall in H.
    specialize (H j (proj2 (in_seq c 0 j) ltac:(lia))).
    apply Qc_leb_le. exact H.
  - intros (r & c & -> & -> & H). f_equal.
    apply forallb_forall. intros i Hi. apply in_seq in Hi.
    apply forallb_forall. intros j Hj. apply in_seq in Hj.
    apply Qc_leb_le. apply H; lia.
Qed.

Lemma mapM_item_matrix_raw {C : Collaborators} (ms : list mat) :
  Forall (fun m => nrows m = ncols m) ms ->
  mapM LinearTransformsMapping.item_matrix
    (List.map (fun m => LinearTransformsMapping.Raw (Matrix m)) ms) = Ok ms.
Proof.
  induction 1 as [|m ms Hm _ IH]; [reflexivity|].
  cbn [List.map mapM LinearTransformsMapping.item_matrix].
  rewrite Affine_init_matrix, Hm, Nat.eqb_refl. cbn [rbind Affine.matrix Affine._matrix].
  rewrite IH. reflexivity.
Qed.


Lemma np_stack_same (n : nat) (ms : list mat) :
  ms <> [] -> Forall (fun m => nrows m = n /\ ncols m = n) ms -> np_stack ms = Ok ms.
Proof.
  intros Hne Hall. destruct ms as [|m ms]; [congruence|].
  unfold np_stack.
  pose proof (Forall_inv Hall) as [Hr Hc]. pose proof (Forall_inv_tail Hall) as Hrest.
  replace (forallb (same_shape m) ms) with true; [reflexivity|].
  symmetry. apply forallb_forall. intros m' Hin.
  rewrite Forall_forall in Hrest. destruct (Hrest m' Hin) as [Hr' Hc'].
  unfold same_shape. rewrite Hr, Hc, Hr', Hc', !Nat.eqb_refl. reflexivity.
Qed.

Section ObjectProperties.
Context {C : Collaborators}.

Lemma bind_ok {A B : Type} (c : result A) (k : A -> result B) (b : B) :
  rbind c k = Ok b -> exists a, c = Ok a /\ k a = Ok b.
Proof. destruct c as [a|e]; [intros H; exists a; auto | discriminate]. Qed.

(** The image and the data that [apply] inspects: the moving image, loaded
    when given as a path, and its squeezed data. *)
Lemma apply_targets_data (self : LinearTransformsMapping.t)
  (spatialimage : LinearTransformsMapping.image_arg)
  (reference : option LinearTransformsMapping.image_arg)
  (_ref : Reference) (image : Image) (data : ndarray) (targets : mat) :
  LinearTransformsMapping.apply_targets self spatialimage reference
    = Ok (_ref, image, data, targets) ->
  LinearTransformsMapping.nbload_if_path spatialimage = Ok image /\
  data = squeeze (dataobj image).
Proof.
  unfold LinearTransformsMapping.apply_targets. intros H.
  apply bind_ok in H. destruct H as (r0 & _ & H).
  apply bind_ok in H. destruct H as (r1 & _ & H).
  apply bind_ok in H. destruct H as (im & Him & H).
  apply bind_ok in H. destruct H as (r2 & _ & H).
  apply bind_ok in H. destruct H as (ys & _ & H).
  apply bind_ok in H. destruct H as (g & _ & H).
  apply bind_ok in H. destruct H as (tg & _ & H).
  injection H as _ <- <- _. split; [exact Him | reflexivity].
Qed.

(** C4, as amended. When the moving data left by [np.squeeze] is 4-D and
    its last axis differs in length from the number of transforms, [apply]
    raises, and its log is empty: no call of [ndi.map_coordinates] has been
    made.  When the steps before the check, which resolve the reference and
    compute the sample locations ([apply_targets]), have succeeded, the
    exception is the [ValueError] on the number of timepoints. *)
Theorem apply_rejects_volume_mismatch (self : LinearTransformsMapping.t)
  (spatialimage : LinearTransformsMapping.image_arg)
  (reference : option LinearTransformsMapping.image_arg)
  (how : interpolation) (output_dtype : option Dtype) (image : Image) :
  LinearTransformsMapping.nbload_if_path spatialimage = Ok image ->
  ndim (squeeze (dataobj image)) = 4%nat ->
  last (shape (squeeze (dataobj image))) 0%nat <> LinearTransformsMapping.__len__ self ->
  (exists e,
     LinearTransformsMapping.apply self spatialimage reference how output_dtype
     = ([], Raise e)) /\
  (forall prepared,
     LinearTransformsMapping.apply_targets self spatialimage reference = Ok prepared ->
     LinearTransformsMapping.apply self spatialimage reference how output_dtype
     = ([], Raise (ValueError (LinearTransformsMapping.timepoints_message
                                 (LinearTransformsMapping.__len__ self)
                                 (last (shape (squeeze (dataobj image))) 0%nat))))).
Proof.
  intros Himage Hdim Hlen.
  assert (Hok : forall prepared,
     LinearTransformsMapping.apply_targets self spatialimage reference = Ok prepared ->
     LinearTransformsMapping.apply self spatialimage reference how output_dtype
     = ([], Raise (ValueError (LinearTransformsMapping.timepoints_message
                                 (LinearTransformsMapping.__len__ self)
                                 (last (shape (squeeze (dataobj image))) 0%nat))))).
  { intros [[[_ref im] data] targets] Hprep.
    destruct (apply_targets_data _ _ _ _ _ _ _ Hprep) as [Him ->].
    rewrite Himage in Him. injection Him as <-.
    unfold LinearTransformsMapping.apply.
    rewrite Hprep. unfold lift. cbn [iobind].
    rewrite Hdim. cbn [Nat.eqb].
    replace (Nat.eqb (LinearTransformsMapping.__len__ self)
               (last (shape (squeeze (dataobj image))) 0%nat))
      with false by (symmetry; apply Nat.eqb_neq; congruence).
    reflexivity. }
  split; [|exact Hok].
  destruct (LinearTransformsMapping.apply_targets self spatialimage reference)
    as [prepared|e] eqn:Hprep.
  - eexists. apply (Hok prepared eq_refl).
  - exists e. unfold LinearTransformsMapping.apply. rewrite Hprep. reflexivity.
Qed.

(** C5. A file that holds one transform loads as a plain [Affine], a file
    that holds N > 1 transforms as a mapping of length N. *)
Theorem load_unwraps_single_transform (filename fmt : string)
  (reference : option Reference) (moving : option Image)
  (f : factory) (ms : list mat) (n : nat) :
  factory_for fmt = Ok f ->
  read_ras f filename reference moving = Ok ms ->
  Forall (square n) ms ->
  (List.length ms = 1%nat ->
   exists m, ms = [m] /\
     load filename fmt reference moving = Ok (Single (Affine.make m reference))) /\
  ((1 < List.length ms)%nat ->
   load filename fmt reference moving
     = Ok (Series (LinearTransformsMapping.make ms reference)) /\
   len (Series (LinearTransformsMapping.make ms reference)) = Ok (List.length ms)).
Proof.
  intros Hf Hread Hsq.
  assert (Hsq1 : Forall (fun m => nrows m = ncols m) ms).
  { eapply Forall_impl; [|exact Hsq]. intros m (_ & Hr & Hc). congruence. }
  assert (Hsq2 : Forall (fun m => nrows m = n /\ ncols m = n) ms).
  { eapply Forall_impl; [|exact Hsq]. intros m (_ & Hr & Hc). auto. }
  assert (Hfrom : ms <> [] ->
    from_filename LinearTransformsMapping_class filename fmt reference moving
    = Ok (Series (LinearTransformsMapping.make ms reference))).
  { intros Hne. unfold from_filename. rewrite Hf. cbn [rbind]. rewrite Hread.
    cbn [rbind]. rewrite (Mapping_init_regular _ _ (regular_raw_matrices n ms Hsq2)), length_map.
    destruct ms as [|m ms']; [congruence|].
    cbn [List.length Nat.ltb Nat.leb].
    rewrite (mapM_item_matrix_raw (m :: ms') Hsq1). cbn [rbind].
    rewrite (np_stack_same n (m :: ms') Hne Hsq2). reflexivity. }
  split.
  - intros Hlen. destruct ms as [|m [|m' ms']]; try discriminate.
    exists m. split; [reflexivity|].
    unfold load. rewrite Hfrom by discriminate.
    cbn [rbind len LinearTransformsMapping.__len__ LinearTransformsMapping._matrix
         List.length Nat.eqb].
    unfold LinearTransformsMapping.__getitem__.
    cbn [LinearTransformsMapping.matrix LinearTransformsMapping._matrix
         LinearTransformsMapping._reference].
    change (py_index [m] 0) with (Ok m). cbn [rbind].
    rewrite Affine_init_matrix.
    inversion Hsq1 as [|? ? Hm _]; subst. rewrite Hm, Nat.eqb_refl. reflexivity.
  - intros Hlen. split; [|reflexivity].
    unfold load. rewrite Hfrom by (destruct ms; simpl in Hlen; [lia | discriminate]).
    cbn [rbind len]. unfold LinearTransformsMapping.__len__.
    cbn [LinearTransformsMapping._matrix].
    replace (Nat.eqb (List.length ms) 1) with false
      by (symmetry; apply Nat.eqb_neq; lia).
    reflexivity.
Qed.



(** C7. The constructor raises its [TypeError] exactly when the matrix is
    not 2-D or not square, and raises nothing else; a square 2-D matrix is
    stored with the reference, and without a matrix the 4 x 4 identity. *)
Theorem Affine_init_checks_shape (matrix : array_like) (reference : option Reference) :
  ((exists msg, Affine.__init__ (Some matrix) reference = Raise (TypeError msg))
   <-> bad_shape matrix) /\
  (forall e, Affine.__init__ (Some matrix) reference = Raise e ->
             exists msg, e = TypeError msg) /\
  (~ bad_shape matrix ->
   exists m, matrix = Matrix m /\
             Affine.__init__ (Some matrix) reference = Ok (Affine.make m reference)) /\
  Affine.__init__ None reference = Ok (Affine.make (eye 4) reference).
Proof.
  unfold bad_shape.
  destruct matrix as [q|v|m|s]; cbn [np_ndim].
  1,2,4: (split; [split; [intros _; left; lia | intros _; eexists; reflexivity]|];
          split; [intros e H; injection H as <-; eexists; reflexivity|];
          split; [intros H; exfalso; apply H; left; lia | reflexivity]).
  rewrite Affine_init_matrix.
  destruct (Nat.eqb_spec (nrows m) (ncols m)) as [Heq|Hne].
  - split; [split|].
    + intros (msg & H). discriminate.
    + intros [H|(m' & E & H)]; [congruence|]. injection E as <-. contradiction.
    + split; [intros e H; discriminate|].
      split; [|reflexivity]. intros _. exists m. split; reflexivity.
  - split; [split|].
    + intros _. right. exists m. split; [reflexivity | exact Hne].
    + intros _. eexists. reflexivity.
    + split; [intros e H; injection H as <-; eexists; reflexivity|].
      split; [|reflexivity]. intros H. exfalso. apply H. right.
      exists m. split; [reflexivity | exact Hne].
Qed.


(** C9. With the default [fmt], [to_filename] raises
    [NotImplementedError] for an [Affine] and for a mapping alike, and its
    log is empty: nothing is written.  With a moving image given, the only
    other outcome is the exception of [ImageGrid(moving)]. *)
Theorem to_filename_default_fmt_fails (a : Affine.t) (s : LinearTransformsMapping.t)
  (filename : string) :
  Affine.to_filename a filename default_fmt None = ([], Raise NotImplementedError) /\
  LinearTransformsMapping.to_filename s filename default_fmt None
    = ([], Raise NotImplementedError) /\
  forall moving : option Image,
    (exists e, Affine.to_filename a filename default_fmt moving = ([], Raise e)) /\
    (exists e, LinearTransformsMapping.to_filename s filename default_fmt moving
               = ([], Raise e)).
Proof.
  split; [reflexivity|]. split; [reflexivity|].
  intros [im|].
  - unfold Affine.to_filename, LinearTransformsMapping.to_filename, default_fmt.
    cbn. destruct (ImageGrid im) as [g|e]; cbn; split; eexists; reflexivity.
  - split; eexists; reflexivity.
Qed.

End ObjectProperties.

(** ** The model on concrete inputs *)

(** Scenario B: two translations, applied to the origin, in index order;
    every row of the mapping's result keeps its homogeneous coordinate. *)
Example mapping_maps_origin :
  LinearTransformsMapping.map (C := toy)
    (LinearTransformsMapping.make [translation_123; translation_back] None)
    (Point origin) (PyBool false)
  = Ok [mkmat [[qz 1; qz 2; qz 3; qz 1]] 4; mkmat [[qz (-1); qz (-2); qz (-3); qz 1]] 4].
Proof.
  vm_compute. apply f_equal.
  apply f_equal2; [|apply f_equal2; [|reflexivity]];
    apply mat_eqb_eq; vm_compute; reflexivity.
Qed.

Example load_one_transform :
  load (C := toy) "one.tfm" "itk" None None
  = Ok (Single (Affine.make translation_123 None)).
Proof. vm_compute. reflexivity. Qed.

Example load_default_fmt :
  load (C := toy) "one.tfm" default_fmt None None = Raise NotImplementedError.
Proof. reflexivity. Qed.

(** C4 fails as stated: the moving data has shape (1, 2, 2, 3), four
    axes and three volumes, against two transforms.  [np.squeeze] leaves a
    3-D array, the check on the number of volumes is not reached, and
    [apply] interpolates and returns. *)
Lemma apply_squeezes_leading_axis :
  ndim (mkarr [1; 2; 2; 3]%nat (repeat (qz 0) 12)) = 4%nat /\
  LinearTransformsMapping.__len__ (C := toy)
    (LinearTransformsMapping.make (C := toy)
       [translation_123; translation_back] (Some one_voxel)) = 2%nat /\
  List.map is_interpolation
    (fst (LinearTransformsMapping.apply (C := toy)
            (LinearTransformsMapping.make (C := toy)
               [translation_123; translation_back] (Some one_voxel))
            (LinearTransformsMapping.Loaded (C := toy)
               (mkarr [1; 2; 2; 3]%nat (repeat (qz 0) 12)))
            None (mkInterpolation 3 "constant" (qz 0) true) None))
  = [true] /\
  exists out,
    snd (LinearTransformsMapping.apply (C := toy)
           (LinearTransformsMapping.make (C := toy)
              [translation_123; translation_back] (Some one_voxel))
           (LinearTransformsMapping.Loaded (C := toy)
              (mkarr [1; 2; 2; 3]%nat (repeat (qz 0) 12)))
           None (mkInterpolation 3 "constant" (qz 0) true) None)
    = Ok out.
Proof.
  split; [reflexivity|]. split; [reflexivity|].
  split; [vm_compute; reflexivity | eexists; vm_compute; reflexivity].
Qed.

(** Three volumes against two transforms. *)
Example apply_three_volumes_raises :
  LinearTransformsMapping.apply (C := toy)
    (LinearTransformsMapping.make (C := toy)
       [translation_123; translation_back] (Some one_voxel))
    (LinearTransformsMapping.Loaded (C := toy) three_volumes) None
    (mkInterpolation 3 "constant" (qz 0) true) None
  = ([], Raise (ValueError
                  "Attempting to apply 2 transforms on a file with 3 timepoints")).
Proof. vm_compute. reflexivity. Qed.

(** C4 as amended, on a concrete input: three volumes against two
    transforms. *)
Lemma apply_three_volumes_two_transforms :
  (exists e,
     LinearTransformsMapping.apply (C := toy)
       (LinearTransformsMapping.make (C := toy)
          [translation_123; translation_back] (Some one_voxel))
       (LinearTransformsMapping.Loaded (C := toy) three_volumes) None
       (mkInterpolation 3 "constant" (qz 0) true) None
     = ([], Raise e)) /\
  (forall prepared,
     LinearTransformsMapping.apply_targets (C := toy)
       (LinearTransformsMapping.make (C := toy)
          [translation_123; translation_back] (Some one_voxel))
       (LinearTransformsMapping.Loaded (C := toy) three_volumes) None = Ok prepared ->
     LinearTransformsMapping.apply (C := toy)
       (LinearTransformsMapping.make (C := toy)
          [translation_123; translation_back] (Some one_voxel))
       (LinearTransformsMapping.Loaded (C := toy) three_volumes) None
       (mkInterpolation 3 "constant" (qz 0) true) None
     = ([], Raise (ValueError (LinearTransformsMapping.timepoints_message 2 3)))).
Proof.
  apply (apply_rejects_volume_mismatch (C := toy)
           (LinearTransformsMapping.make (C := toy)
              [translation_123; translation_back] (Some one_voxel))
           (LinearTransformsMapping.Loaded (C := toy) three_volumes) None
           (mkInterpolation 3 "constant" (qz 0) true) None three_volumes).
  - reflexivity.
  - reflexivity.
  - vm_compute. discriminate.
Defined.

(** C5, on a concrete input: the file with two transforms. *)
Lemma load_two_transforms :
  (List.length [translation_123; translation_back] = 1%nat ->
   exists m, [translation_123; translation_back] = [m] /\
     load (C := toy) "two.tfm" "ITK" None None = Ok (Single (Affine.make m None))) /\
  ((1 < List.length [translation_123; translation_back])%nat ->
   load (C := toy) "two.tfm" "ITK" None None
     = Ok (Series (LinearTransformsMapping.make [translation_123; translation_back] None)) /\
   len (C := toy)
     (Series (LinearTransformsMapping.make [translation_123; translation_back] None))
     = Ok (List.length [translation_123; translation_back])).
Proof.
  apply (load_unwraps_single_transform (C := toy) "two.tfm" "ITK" None None
           ITKLinearTransformArray_factory [translation_123; translation_back] 4).
  - reflexivity.
  - reflexivity.
  - repeat constructor.
Defined.



(** An [Affine] and a raw matrix in one sequence: where NumPy refuses
    sequences that are not regular, so does the constructor. *)
Example Mapping_init_mixed_items :
  LinearTransformsMapping.__init__ (C := toy)
    (Some [LinearTransformsMapping.Xfm (Affine.make translation_123 None);
           LinearTransformsMapping.Raw (Matrix translation_back)]) None
  = Raise (ValueError "inhomogeneous shape").
Proof. reflexivity. Qed.


(** * Further properties of the code

    Properties of [linear.py] beyond the claims: of [map], of the
    constructors and [__getitem__], of [__eq__], of the format dispatch of
    [to_filename], [from_filename] and [load], of [apply] and of
    [_to_hdf5]. *)

(** ** Mapping points *)

(** With the homogeneous last row, the last coordinate passes through. *)
Lemma nth_matvec_homogeneous (n : nat) (a : mat) (y : vec) :
  square (S n) a -> homogeneous_last_row a -> List.length y = S n ->
  nth n (matvec (rows a) y) 0 = nth n y 0.
Proof.
  intros (Hwf & Hr & Hc) Hlast Hy. unfold homogeneous_last_row in Hlast.
  rewrite Hr in Hlast. replace (S n - 1)%nat with n in Hlast by lia.
  rewrite nth_matvec.
  assert (Hne : rows a <> []) by (unfold nrows in Hr; destruct (rows a); discriminate).
  assert (E : nth n (rows a) [] = last (rows a) []).
  { rewrite (app_removelast_last [] Hne) at 1.
    assert (Hl : List.length (removelast (rows a)) = n).
    { assert (H := f_equal (@List.length vec) (app_removelast_last [] Hne)).
      rewrite length_app in H. simpl in H. unfold nrows in Hr. lia. }
    rewrite app_nth2 by lia. rewrite Hl, Nat.sub_diag. reflexivity. }
  rewrite E, Hlast. apply dotp_unitv; lia.
Qed.

Lemma last_nth_vec (n : nat) (l : vec) :
  List.length l = S n -> removelast l ++ [nth n l 0] = l.
Proof.
  intros Hl. assert (Hne : l <> []) by (destruct l; discriminate).
  destruct (exists_last Hne) as (l' & a & ->).
  rewrite length_app in Hl. simpl in Hl.
  rewrite removelast_last, app_nth2 by lia.
  replace (n - List.length l')%nat with 0%nat by lia. reflexivity.
Qed.

Section MoreMapProperties.
Context {C : Collaborators}.

(** X1. Entry [i] of [LinearTransformsMapping.map] is what the [i]-th
    transform of the series maps to: the result has one entry per transform,
    and the first D columns of entry [i] are [self[i].map(x, inverse)]. *)
Theorem Mapping_map_entries_are_Affine_maps (s : LinearTransformsMapping.t)
  (x : points) (inverse : pyobj) (ys : list mat) :
  Forall (fun m => nrows m = ncols m) (LinearTransformsMapping.matrix s) ->
  LinearTransformsMapping.map s x inverse = Ok ys ->
  List.length ys = LinearTransformsMapping.__len__ s /\
  forall i y, nth_error ys i = Some y ->
    exists a, LinearTransformsMapping.__getitem__ s (Z.of_nat i) = Ok a /\
              Affine.map a x inverse = Ok (drop_last_column y).
Proof.
  intros Hsq H. destruct s as [ms ref].
  unfold LinearTransformsMapping.map, LinearTransformsMapping.map_using in H.
  unfold LinearTransformsMapping.__len__, LinearTransformsMapping.__getitem__.
  cbn [LinearTransformsMapping.matrix LinearTransformsMapping._matrix
       LinearTransformsMapping._reference] in *.
  apply bind_ok in H. destruct H as (aff & Haff & H).
  apply bind_ok in H. destruct H as (ys0 & Hys0 & H). injection H as <-.
  apply mapM_Forall2 in Hys0.
  assert (Hinv : Forall2 (fun m a => (if is_True inverse then linalg_inv m else Ok m) = Ok a)
                   ms aff).
  { destruct (is_True inverse).
    - apply mapM_Forall2. exact Haff.
    - injection Haff as <-. clear. induction ms; constructor; auto. }
  split.
  - rewrite length_map, <- (Forall2_length Hys0). apply eq_sym, (Forall2_length Hinv).
  - intros i y Hi. rewrite nth_error_map in Hi.
    destruct (nth_error ys0 i) as [y0|] eqn:Hy0; [|discriminate]. injection Hi as <-.
    destruct (Forall2_nth_error_r _ _ _ Hys0 i y0 Hy0) as (a & Ha & Hdot).
    destruct (Forall2_nth_error_r _ _ _ Hinv i a Ha) as (m & Hm & Hma).
    exists (Affine.make m ref). split.
    + rewrite (py_index_nat ms i m Hm). cbn [rbind]. rewrite Affine_init_matrix.
      rewrite Forall_forall in Hsq. rewrite (Hsq m (nth_error_In _ _ Hm)), Nat.eqb_refl.
      reflexivity.
    + unfold Affine.map, Affine.map_using. cbn [Affine._matrix]. rewrite Hma. cbn [rbind].
      unfold _as_homogeneous in *. rewrite Hdot. reflexivity.
Qed.

(** X2. The forward [LinearTransformsMapping.map] of N points of dimension
    D through K transforms with the homogeneous last row succeeds and keeps
    the homogeneous coordinate: K entries of N rows and D + 1 columns, the
    last column all ones. *)
Theorem Mapping_map_forward_is_homogeneous (s : LinearTransformsMapping.t) (n : nat)
  (x : points) :
  Forall (fun m => square (S n) m /\ homogeneous_last_row m)
    (LinearTransformsMapping.matrix s) ->
  wf_mat (atleast_2d x) -> ncols (atleast_2d x) = n ->
  exists ys, LinearTransformsMapping.map s x (PyBool false) = Ok ys /\
    List.length ys = LinearTransformsMapping.__len__ s /\
    Forall (fun y => nrows y = nrows (atleast_2d x) /\ ncols y = S n /\
                     Forall (fun r => List.length r = S n /\ last r 0 = 1) (rows y)) ys.
Proof.
  intros Hall Hwf Hn. destruct s as [ms ref].
  unfold LinearTransformsMapping.map, LinearTransformsMapping.map_using,
    LinearTransformsMapping.__len__.
  cbn [LinearTransformsMapping.matrix LinearTransformsMapping._matrix is_True rbind] in *.
  set (h := _as_homogeneous x _).
  assert (Hh : wf_mat h) by (apply wf_as_homogeneous; exact Hwf).
  assert (Hhc : ncols h = S n) by (unfold h, _as_homogeneous; cbn [ncols]; lia).
  rewrite (dot_each ms h Hh).
  2:{ eapply Forall_impl; [|exact Hall]. intros m ((_ & _ & Hc) & _).
      cbn beta. rewrite Hhc. exact Hc. }
  eexists. split; [reflexivity|]. split; [apply length_map|].
  rewrite Forall_map. eapply Forall_impl; [|exact Hall].
  intros m (Hsq & Hlast). cbn beta. unfold nrows at 1. cbn [rows ncols].
  split; [|split].
  - rewrite length_map. unfold h, _as_homogeneous, nrows. cbn [rows].
    apply length_map.
  - destruct Hsq as (_ & Hr & _). exact Hr.
  - rewrite Forall_map. unfold h, _as_homogeneous. cbn [rows].
    rewrite Forall_map. unfold wf_mat in Hwf. rewrite Forall_forall in *.
    intros p Hp.
    assert (Hlp : List.length p = n) by (rewrite (Hwf p Hp); exact Hn).
    split.
    + rewrite length_matvec. destruct Hsq as (_ & Hr & _). exact Hr.
    + rewrite <- (matvec_homogeneous n m p Hsq Hlast Hlp). apply last_last.
Qed.

(** X3. The default transform, [Affine()] with its 4 x 4 identity, maps
    every set of 3-D points to itself, whatever [inverse] is. *)
Theorem Affine_default_maps_identically (reference : option Reference) (x : points)
  (inverse : pyobj) :
  wf_mat (atleast_2d x) -> ncols (atleast_2d x) = 3%nat ->
  (a <- Affine.__init__ None reference ;; Affine.map a x inverse) = Ok (atleast_2d x).
Proof.
  intros Hwf Hn. rewrite Affine_init_default. cbn [rbind].
  unfold Affine.map, Affine.map_using. cbn [Affine._matrix].
  assert (E : (if is_True inverse then linalg_inv (eye 4) else Ok (eye 4)) = Ok (eye 4)).
  { destruct (is_True inverse); [|reflexivity]. eval_mat. }
  rewrite E. cbn [rbind]. rewrite (map_points (eye 4) x _ Hwf) by (rewrite Hn; reflexivity).
  f_equal. destruct (atleast_2d x) as [ps c]. cbn [rows ncols] in *. subst c.
  f_equal. rewrite <- (map_id ps) at 2. apply map_ext_in. intros p Hp.
  unfold wf_mat in Hwf. cbn [rows ncols] in Hwf. rewrite Forall_forall in Hwf.
  rewrite matvec_eye by (rewrite length_app, (Hwf p Hp); reflexivity).
  apply removelast_last.
Qed.

(** X4. The round trip in the other order: for a matrix with the
    homogeneous last row for which the inversion routine returns a right
    inverse, mapping with [inverse=True] and then forward gives the points
    back.  The routine is any. *)
Theorem map_forward_recovers_points (inv : mat -> result mat) (self : Affine.t)
  (n : nat) (x : points) (b : mat) :
  square (S n) (Affine.matrix self) ->
  homogeneous_last_row (Affine.matrix self) ->
  inv (Affine.matrix self) = Ok b ->
  square (S n) b ->
  dot (Affine.matrix self) b = Ok (eye (S n)) ->
  wf_mat (atleast_2d x) -> ncols (atleast_2d x) = n ->
  (y <- Affine.map_using inv self x (PyBool true) ;;
   Affine.map_using inv self (Points y) (PyBool false))
  = Ok (atleast_2d x).
Proof.
  intros Hsq Hlast Hb Hbsq Hdot Hwf Hn.
  destruct self as [a ref]. cbn [Affine.matrix Affine._matrix] in *.
  assert (Hright := left_inverse_cancels (S n) b a Hbsq Hdot).
  assert (Ha := Hsq). destruct Ha as (Hawf & Har & Hac).
  assert (Hb' := Hbsq). destruct Hb' as (Hbwf & Hbr & Hbc).
  unfold Affine.map_using at 1. cbn [Affine._matrix is_True]. rewrite Hb. cbn [rbind].
  rewrite (map_points b x _ Hwf) by lia.
  cbn [rbind]. unfold Affine.map_using. cbn [Affine._matrix is_True rbind].
  set (y := mkmat _ (Nat.pred (nrows b))).
  assert (Hywf : wf_mat (atleast_2d (Points y))).
  { unfold wf_mat, y. cbn [atleast_2d rows ncols].
    rewrite Forall_map, Forall_forall. intros p Hp.
    rewrite length_removelast_vec, length_matvec. reflexivity. }
  rewrite (map_points a (Points y) _ Hywf)
    by (unfold y; cbn [atleast_2d ncols]; lia).
  f_equal. unfold y. cbn [atleast_2d rows]. rewrite map_map.
  destruct (atleast_2d x) as [ps c] eqn:E. cbn [rows ncols] in *. subst c.
  rewrite Har. f_equal.
  rewrite <- (map_id ps) at 2. apply map_ext_in. intros p Hp.
  unfold wf_mat in Hwf. cbn [rows ncols] in Hwf. rewrite Forall_forall in Hwf.
  assert (Hp1 : List.length (p ++ [1]) = S n)
    by (rewrite length_app, (Hwf p Hp); simpl; lia).
  assert (Hlen : List.length (matvec (rows b) (p ++ [1])) = S n)
    by (rewrite length_matvec; exact Hbr).
  assert (Hone : nth n (matvec (rows b) (p ++ [1])) 0 = 1).
  { rewrite <- (nth_matvec_homogeneous n a _ Hsq Hlast Hlen).
    rewrite Hright by exact Hp1.
    rewrite app_nth2 by (rewrite (Hwf p Hp); lia).
    rewrite (Hwf p Hp), Nat.sub_diag. reflexivity. }
  replace (removelast (matvec (rows b) (p ++ [1])) ++ [1])
    with (matvec (rows b) (p ++ [1]))
    by (pose proof (last_nth_vec n _ Hlen) as L; rewrite Hone in L; symmetry; exact L).
  rewrite Hright by exact Hp1. apply removelast_last.
Qed.

(** X5. Mapping composes as the matrices multiply: when [A] has the
    homogeneous last row and [B.dot(A)] is [M], mapping through [Affine(A)]
    and then through [Affine(B)] is mapping through [Affine(M)]. *)
Theorem map_composes_as_dot (a b m : Affine.t) (n : nat) (x : points) :
  square (S n) (Affine.matrix a) -> homogeneous_last_row (Affine.matrix a) ->
  square (S n) (Affine.matrix b) ->
  dot (Affine.matrix b) (Affine.matrix a) = Ok (Affine.matrix m) ->
  wf_mat (atleast_2d x) -> ncols (atleast_2d x) = n ->
  (y <- Affine.map a x (PyBool false) ;; Affine.map b (Points y) (PyBool false))
  = Affine.map m x (PyBool false).
Proof.
  intros Ha Hlast Hb Hdot Hwf Hn.
  destruct a as [A ra], b as [B rb], m as [M rm]. cbn [Affine.matrix Affine._matrix] in *.
  assert (HA := Ha). destruct HA as (Hawf & Har & Hac).
  assert (HB := Hb). destruct HB as (Hbwf & Hbr & Hbc).
  assert (HM : nrows M = S n /\ ncols M = S n).
  { unfold dot in Hdot. destruct (Nat.eqb (ncols B) (nrows A)); [|discriminate].
    injection Hdot as <-. unfold nrows. cbn [rows ncols]. rewrite length_map.
    split; [exact Hbr | exact Hac]. }
  destruct HM as (Hmr & Hmc).
  unfold Affine.map, Affine.map_using. cbn [Affine._matrix is_True rbind].
  rewrite (map_points A x _ Hwf) by lia. cbn [rbind].
  rewrite (map_points M x _ Hwf) by lia.
  set (y := mkmat _ (Nat.pred (nrows A))).
  assert (Hywf : wf_mat (atleast_2d (Points y))).
  { unfold wf_mat, y. cbn [atleast_2d rows ncols].
    rewrite Forall_map, Forall_forall. intros p Hp.
    rewrite length_removelast_vec, length_matvec. reflexivity. }
  rewrite (map_points B (Points y) _ Hywf)
    by (unfold y; cbn [atleast_2d ncols]; lia).
  f_equal. unfold y. cbn [atleast_2d rows]. rewrite map_map.
  rewrite Hbr, Hmr. f_equal. apply map_ext_in. intros p Hp.
  unfold wf_mat in Hwf. rewrite Forall_forall in Hwf.
  assert (Hp1 : List.length (p ++ [1]) = S n)
    by (rewrite length_app, (Hwf p Hp); simpl; lia).
  rewrite (matvec_homogeneous n A p Ha Hlast) by (rewrite (Hwf p Hp); exact Hn).
  rewrite (matvec_dot (S n) A B M (p ++ [1]) Hawf Hac Hp1 Hdot). reflexivity.
Qed.

End MoreMapProperties.

(** ** Construction, indexing, equality and export *)

Lemma np_stack_ok (ms stacked : list mat) :
  np_stack ms = Ok stacked ->
  stacked = ms /\ ms <> [] /\
  Forall (fun m => nrows m = nrows (hd (mkmat [] 0) ms) /\
                   ncols m = ncols (hd (mkmat [] 0) ms)) ms.
Proof.
  unfold np_stack. destruct ms as [|m rest]; [discriminate|].
  destruct (forallb (same_shape m) rest) eqn:E; [|discriminate].
  intros H. injection H as <-. split; [reflexivity|]. split; [discriminate|].
  cbn [hd]. constructor; [split; reflexivity|].
  rewrite forallb_forall in E. apply Forall_forall. intros m' Hin.
  specialize (E m' Hin). unfold same_shape in E.
  apply andb_prop in E. destruct E as [Er Ec].
  apply Nat.eqb_eq in Er, Ec. split; congruence.
Qed.

Lemma Qcabs_zero_le (rtol atol b : Qc) :
  0 <= rtol -> 0 <= atol -> Qcabs (b - b) <= atol + rtol * Qcabs b.
Proof.
  intros Hr Ha. replace (b - b) with (Q2Qc 0) by ring.
  assert (Z0 : Qcabs (Q2Qc 0) = 0 + 0) by (apply Qc_is_canon; reflexivity).
  rewrite Z0.
  apply Qcplus_le_compat; [exact Ha|].
  replace (Q2Qc 0) with (0 * Qcabs b) by ring.
  apply Qcmult_le_compat_r; [exact Hr | apply Qcabs_nonneg].
Qed.

Section MoreObjectProperties.
Context {C : Collaborators}.


(** X7. Indexing a mapping of N square matrices: an index from 0 to N - 1
    gives the [Affine] of that matrix with the mapping's reference, an
    index from -N to -1 counts from the end, and every other index raises
    [IndexError]. *)
Theorem Mapping_getitem_indexes (s : LinearTransformsMapping.t) (i : Z) :
  Forall (fun m => nrows m = ncols m) (LinearTransformsMapping.matrix s) ->
  ((0 <= i < Z.of_nat (LinearTransformsMapping.__len__ s))%Z ->
   LinearTransformsMapping.__getitem__ s i
   = Ok (Affine.make (nth (Z.to_nat i) (LinearTransformsMapping.matrix s) (eye 4))
           (LinearTransformsMapping._reference s))) /\
  ((- Z.of_nat (LinearTransformsMapping.__len__ s) <= i < 0)%Z ->
   LinearTransformsMapping.__getitem__ s i
   = LinearTransformsMapping.__getitem__ s
       (Z.of_nat (LinearTransformsMapping.__len__ s) + i)) /\
  ((i < - Z.of_nat (LinearTransformsMapping.__len__ s)
    \/ Z.of_nat (LinearTransformsMapping.__len__ s) <= i)%Z ->
   LinearTransformsMapping.__getitem__ s i = Raise IndexError).
Proof.
  intros Hsq. destruct s as [ms ref].
  unfold LinearTransformsMapping.__getitem__, LinearTransformsMapping.__len__.
  cbn [LinearTransformsMapping.matrix LinearTransformsMapping._matrix
       LinearTransformsMapping._reference] in *.
  split; [|split].
  - intros Hi. unfold py_index.
    replace (i <? 0)%Z with false by (symmetry; apply Z.ltb_ge; lia).
    replace (0 <=? i)%Z with true by (symmetry; apply Z.leb_le; lia).
    replace (i <? Z.of_nat (List.length ms))%Z with true by (symmetry; apply Z.ltb_lt; lia).
    cbn [andb].
    assert (Hn : (Z.to_nat i < List.length ms)%nat) by lia.
    rewrite (nth_error_nth' ms (eye 4) Hn). cbn [rbind].
    rewrite Affine_init_matrix. rewrite Forall_forall in Hsq.
    rewrite (Hsq _ (nth_In ms (eye 4) Hn)), Nat.eqb_refl. reflexivity.
  - intros Hi. f_equal. unfold py_index.
    replace (i <? 0)%Z with true by (symmetry; apply Z.ltb_lt; lia).
    replace (Z.of_nat (List.length ms) + i <? 0)%Z with false
      by (symmetry; apply Z.ltb_ge; lia).
    reflexivity.
  - intros Hi. unfold py_index.
    destruct (Z.ltb_spec i 0) as [Hneg|Hpos].
    + replace (0 <=? Z.of_nat (List.length ms) + i)%Z with false
        by (symmetry; apply Z.leb_gt; lia).
      reflexivity.
    + replace (i <? Z.of_nat (List.length ms))%Z with false
        by (symmetry; apply Z.ltb_ge; lia).
      rewrite andb_false_r. reflexivity.
Qed.

(** X8. Two [Affine]s of the same matrix compare equal whenever the
    comparison of their references returns, as long as the tolerance of
    [base.py] is not negative; the warning is given exactly when the
    references are found to differ. *)
Theorem Affine_eq_same_matrix (m : mat) (r1 r2 : option Reference) (differ : bool) :
  0 <= EQUALITY_TOL ->
  reference_ne r1 r2 = Ok differ ->
  Affine.__eq__ (Affine.make m r1) (Affine.make m r2)
  = ((if differ then [Warning "Affines are equal, but references do not match."] else []),
     Ok true).
Proof.
  intros Htol Hne.
  assert (E : allclose EQUALITY_TOL m m = Ok true).
  { apply allclose_true_iff. exists (nrows m), (ncols m).
    unfold broadcast_dim. rewrite !Nat.eqb_refl. split; [reflexivity|].
    split; [reflexivity|]. intros i j _ _. unfold close.
    apply Qcabs_zero_le; [exact Htol|]. unfold atol_default. apply Qc_leb_le. reflexivity. }
  unfold Affine.__eq__, lift. cbn [Affine.matrix Affine._matrix Affine._reference].
  rewrite E. cbn [iobind]. rewrite Hne. cbn [iobind app]. destruct differ; reflexivity.
Qed.

(** X9. [==] on matrices of sizes that do not broadcast (they differ, and
    neither is 1) does not return [False]: the [ValueError] of
    [np.allclose] comes out, and no warning is given. *)
Theorem Affine_eq_raises_on_sizes (self other : Affine.t) :
  nrows (Affine.matrix self) <> nrows (Affine.matrix other) ->
  nrows (Affine.matrix self) <> 1%nat -> nrows (Affine.matrix other) <> 1%nat ->
  exists msg, Affine.__eq__ self other = ([], Raise (ValueError msg)).
Proof.
  intros Hne H1 H2. unfold Affine.__eq__, lift, allclose, broadcast_dim.
  apply Nat.eqb_neq in Hne, H1, H2. rewrite Hne, H1, H2.
  eexists. reflexivity.
Qed.

End MoreObjectProperties.

(** ** Formats and loading *)

Lemma str_in_two (s a b : string) :
  str_in s [a; b] = true -> s = a \/ s = b.
Proof.
  cbn [str_in]. rewrite orb_false_r. intros H. apply orb_prop in H.
  destruct H as [H|H]; apply String.eqb_eq in H; auto.
Qed.

Lemma interpolations_app (l l' : list event) :
  interpolations (l ++ l') = interpolations l ++ interpolations l'.
Proof. apply flat_map_app. Qed.

(** The interpolation calls of a loop in which every round either stops
    with an exception before its call, or makes the one call [g t]. *)
Lemma iomapM_interpolations {A B : Type} (f : A -> io B) (g : A -> ndarray * mat)
  (l : list A) :
  (forall t, In t l ->
     (interpolations (fst (f t)) = [] /\ exists e, snd (f t) = Raise e)
     \/ interpolations (fst (f t)) = [g t]) ->
  (exists k, (k <= List.length l)%nat /\
             interpolations (fst (iomapM f l)) = firstn k (List.map g l)) /\
  (forall out, snd (iomapM f l) = Ok out ->
               interpolations (fst (iomapM f l)) = List.map g l).
Proof.
  induction l as [|t l IH]; intros Hf.
  - split; [exists 0%nat; split; [lia | reflexivity] | reflexivity].
  - destruct IH as ((k & Hk & Hlog) & Hok).
    { intros t' Hin. apply Hf. right. exact Hin. }
    cbn [iomapM List.map]. specialize (Hf t (or_introl eq_refl)).
    destruct (f t) as [lt [b|e]]; cbn [fst snd] in Hf.
    + destruct Hf as [(_ & e & He)|Hf]; [discriminate|].
      cbn [iobind]. destruct (iomapM f l) as [ll [bs|e]]; cbn [fst snd iobind ret] in *.
      * rewrite app_nil_r, interpolations_app, Hf, (Hok bs eq_refl).
        split; [|reflexivity]. exists (S (List.length l)). split; [simpl; lia|].
        cbn [firstn app]. rewrite <- (length_map g l), firstn_all. reflexivity.
      * rewrite interpolations_app, Hf, Hlog. split; [|discriminate].
        exists (S k). split; [simpl; lia | reflexivity].
    + cbn [iobind fst snd]. split; [|discriminate].
      destruct Hf as [(Hnil & _)|Hone].
      * exists 0%nat. split; [lia | exact Hnil].
      * exists 1%nat. split; [simpl; lia|]. rewrite Hone. reflexivity.
Qed.

Section MoreLoadingProperties.
Context {C : Collaborators}.

Lemma Mapping_init_stacked (ts : list LinearTransformsMapping.item)
  (reference : option Reference) (s : LinearTransformsMapping.t) :
  LinearTransformsMapping.__init__ (Some ts) reference = Ok s ->
  exists ms, mapM LinearTransformsMapping.item_matrix ts = Ok ms /\
             s = LinearTransformsMapping.make ms reference /\ ms <> [].
Proof.
  intros H. rewrite Mapping_init_some in H.
  apply bind_ok in H. destruct H as (k & _ & H).
  destruct (k <? 1); [discriminate|].
  apply bind_ok in H. destruct H as (ms & Hms & H).
  apply bind_ok in H. destruct H as (stacked & Hst & H). injection H as <-.
  apply np_stack_ok in Hst. destruct Hst as (-> & Hne & _).
  exists ms. auto.
Qed.

(** X11. The formats [afni] and [fsl] can be written but not read:
    [from_filename] and [load] raise [NotImplementedError] for them without
    looking at the file, while [to_filename] writes what the adapter
    returns; without a moving image the transform's own reference is
    handed to the adapter as the moving grid. *)
Theorem afni_and_fsl_are_write_only (cls : class) (a : Affine.t)
  (filename fmt : string) (reference : option Reference) (moving : option Image) :
  str_in (lower fmt) ["afni"; "fsl"]%string = true ->
  from_filename cls filename fmt reference moving = Raise NotImplementedError /\
  load filename fmt reference moving = Raise NotImplementedError /\
  forall text,
    adapter_text (if String.eqb (lower fmt) "afni" then AFNILinearTransform
                  else FSLLinearTransform)
      (Matrix (Affine.matrix a)) (Affine.reference a) (Affine.reference a) = Ok text ->
    Affine.to_filename a filename fmt None = ([FileWrite filename text], Ok filename).
Proof.
  intros H. apply str_in_two in H.
  assert (Hf : factory_for fmt = Raise NotImplementedError)
    by (unfold factory_for; destruct H as [-> | ->]; reflexivity).
  split; [unfold from_filename; rewrite Hf; reflexivity|].
  split; [unfold load, from_filename; rewrite Hf; reflexivity|].
  intros text Htext. unfold Affine.to_filename.
  destruct H as [E|E]; rewrite E in *; cbn [str_in String.eqb Ascii.eqb Bool.eqb orb] in *;
    cbn [iobind ret]; rewrite Htext; reflexivity.
Qed.

(** X12. The format name [lta] is the other way round: [from_filename]
    takes it for the FreeSurfer parser, and [to_filename], which knows the
    format as [fs] only, raises [NotImplementedError] and writes nothing. *)
Theorem lta_is_read_only (a : Affine.t) (s : LinearTransformsMapping.t)
  (filename fmt : string) :
  lower fmt = "lta"%string ->
  factory_for fmt = Ok LinearTransformArray_factory /\
  Affine.to_filename a filename fmt None = ([], Raise NotImplementedError) /\
  LinearTransformsMapping.to_filename s filename fmt None
  = ([], Raise NotImplementedError).
Proof.
  intros E. unfold factory_for, Affine.to_filename, LinearTransformsMapping.to_filename.
  rewrite E. repeat split; reflexivity.
Qed.

(** X13. [Affine.from_filename] takes files of exactly one transform: on a
    file of any other number it raises the [TypeError] that names the
    file, and on a file of one square matrix it returns what [load]
    returns. *)
Theorem Affine_from_filename_takes_one (filename fmt : string)
  (reference : option Reference) (moving : option Image)
  (f : factory) (ms : list mat) :
  factory_for fmt = Ok f ->
  read_ras f filename reference moving = Ok ms ->
  Forall (fun m => nrows m = ncols m) ms ->
  (List.length ms <> 1%nat ->
   from_filename Affine_class filename fmt reference moving
   = Raise (TypeError ("Cannot load transform array " ++ quoted filename))) /\
  (List.length ms = 1%nat ->
   from_filename Affine_class filename fmt reference moving
   = load filename fmt reference moving /\
   exists m, ms = [m] /\
     load filename fmt reference moving = Ok (Single (Affine.make m reference))).
Proof.
  intros Hf Hread Hsq. split.
  - intros Hlen. unfold from_filename. rewrite Hf. cbn [rbind]. rewrite Hread.
    cbn [rbind]. apply Nat.eqb_neq in Hlen. rewrite Hlen. reflexivity.
  - intros Hlen. destruct ms as [|m [|m' ms']]; try discriminate.
    pose proof (Forall_inv Hsq) as Hm. cbn beta in Hm.
    assert (Hone : from_filename Affine_class filename fmt reference moving
                   = Ok (Single (Affine.make m reference))).
    { unfold from_filename. rewrite Hf. cbn [rbind]. rewrite Hread.
      cbn [rbind List.length Nat.eqb negb].
      change (py_index [m] 0) with (Ok m). cbn [rbind].
      rewrite Affine_init_matrix, Hm, Nat.eqb_refl. reflexivity. }
    assert (Hload : load filename fmt reference moving
                    = Ok (Single (Affine.make m reference))).
    { unfold load, from_filename. rewrite Hf. cbn [rbind]. rewrite Hread.
      cbn [rbind]. rewrite Mapping_init_regular by reflexivity.
      rewrite length_map. cbn [List.length Nat.ltb Nat.leb].
      rewrite (mapM_item_matrix_raw [m] Hsq). cbn [rbind np_stack forallb].
      cbn [len LinearTransformsMapping.__len__ LinearTransformsMapping._matrix
           List.length Nat.eqb].
      unfold LinearTransformsMapping.__getitem__.
      cbn [LinearTransformsMapping.matrix LinearTransformsMapping._matrix
           LinearTransformsMapping._reference].
      change (py_index [m] 0) with (Ok m). cbn [rbind].
      rewrite Affine_init_matrix, Hm, !Nat.eqb_refl. reflexivity. }
    split; [rewrite Hone, Hload; reflexivity|].
    exists m. split; [reflexivity | exact Hload].
Qed.

(** X14. What [load] returns: a plain [Affine] has a square matrix, a
    mapping has at least two transforms (a mapping of one is unwrapped),
    and either carries the reference that was given. *)
Theorem load_returns_affine_or_longer_mapping (filename fmt : string)
  (reference : option Reference) (moving : option Image) :
  match load filename fmt reference moving with
  | Ok (Single a) => constructed a /\ Affine._reference a = reference
  | Ok (Series s) =>
      (2 <= LinearTransformsMapping.__len__ s)%nat /\
      LinearTransformsMapping._reference s = reference
  | Raise _ => True
  end.
Proof.
  destruct (load filename fmt reference moving) as [xfm|e] eqn:H; [|exact I].
  unfold load in H.
  apply bind_ok in H. destruct H as (xfm0 & Hfrom & H).
  apply bind_ok in H. destruct H as (n & Hlen & H).
  unfold from_filename in Hfrom.
  apply bind_ok in Hfrom. destruct Hfrom as (f & _ & Hfrom).
  apply bind_ok in Hfrom. destruct Hfrom as (ms & _ & Hfrom).
  apply bind_ok in Hfrom. destruct Hfrom as (s & Hinit & Hfrom). injection Hfrom as <-.
  apply Mapping_init_stacked in Hinit. destruct Hinit as (ms' & _ & -> & Hne).
  cbn [len] in Hlen. injection Hlen as <-.
  unfold LinearTransformsMapping.__len__ in *.
  cbn [LinearTransformsMapping._matrix] in *.
  destruct (Nat.eqb_spec (List.length ms') 1) as [E|E].
  - apply bind_ok in H. destruct H as (a & Ha & H). injection H as <-.
    unfold LinearTransformsMapping.__getitem__ in Ha.
    apply bind_ok in Ha. destruct Ha as (m & _ & Ha).
    cbn [LinearTransformsMapping._reference] in Ha.
    rewrite Affine_init_matrix in Ha.
    destruct (Nat.eqb_spec (nrows m) (ncols m)) as [Hm|]; [|discriminate].
    injection Ha as <-. split; [exact Hm | reflexivity].
  - injection H as <-. cbn [LinearTransformsMapping._matrix LinearTransformsMapping._reference].
    split; [|reflexivity]. destruct ms' as [|m0 [|m1 ms'']]; simpl in *; try congruence; lia.
Qed.

End MoreLoadingProperties.

(** ** Resampling and serialization to X5 *)

Lemma length_chunks {A : Type} (n k : nat) : forall l : list A,
  List.length (chunks n k l) = k.
Proof. induction k as [|k IH]; intros l; simpl; [|rewrite IH]; reflexivity. Qed.

Lemma reshape_blocks_length (k : nat) (m : mat) (blocks : list mat) :
  reshape_blocks k m = Ok blocks -> List.length blocks = k.
Proof.
  unfold reshape_blocks. destruct (Nat.eqb (k * ncols m) 0); [discriminate|].
  destruct (Nat.eqb (nrows m mod k) 0); [|discriminate].
  intros H. injection H as <-. rewrite length_map. apply length_chunks.
Qed.

Lemma iobind_lift_ok {A B : Type} (a : A) (k : A -> io B) :
  iobind (lift (Ok a)) k = k a.
Proof. unfold lift. cbn [iobind]. destruct (k a). reflexivity. Qed.

Section ResamplingProperties.
Context {C : Collaborators}.

(** The steps of [apply] after the interpolation make no further call. *)
Lemma apply_log (self : LinearTransformsMapping.t)
  (spatialimage : LinearTransformsMapping.image_arg)
  (reference : option LinearTransformsMapping.image_arg)
  (how : interpolation) (output_dtype : option Dtype)
  (_ref : Reference) (image : Image) (data : ndarray) (targets : mat)
  (resampling : io ndarray) :
  LinearTransformsMapping.apply_targets self spatialimage reference
    = Ok (_ref, image, data, targets) ->
  resampling
  = (let output_dtype := match output_dtype with
                         | Some d => d
                         | None => data_dtype image
                         end in
     if Nat.eqb (ndim data) 4 then
       if negb (Nat.eqb (LinearTransformsMapping.__len__ self) (last (shape data) 0%nat)) then
         raise (ValueError (LinearTransformsMapping.timepoints_message
                              (LinearTransformsMapping.__len__ self)
                              (last (shape data) 0%nat)))
       else
         targets <~ lift (reshape_blocks (LinearTransformsMapping.__len__ self) targets) ;;
         volumes <~ iomapM (fun t =>
                       tt' <~ lift (py_index targets (Z.of_nat t)) ;;
                       LinearTransformsMapping.interpolate (take_last_axis t data)
                         (transpose (first_columns (ref_ndim _ref) tt'))
                         output_dtype how)
                     (seq 0 (last (shape data) 0%nat)) ;;
         lift (stack_vectors volumes)
     else if Nat.eqb (ndim data) 2 || Nat.eqb (ndim data) 3 then
       v <~ LinearTransformsMapping.interpolate data
              (transpose (first_columns (ref_ndim _ref) targets)) output_dtype how ;;
       ret (mkarr [List.length v] v)
     else raise UnboundLocalError) ->
  fst (LinearTransformsMapping.apply self spatialimage reference how output_dtype)
  = fst resampling /\
  (forall e, snd resampling = Raise e ->
     snd (LinearTransformsMapping.apply self spatialimage reference how output_dtype)
     = Raise e) /\
  (forall out,
     snd (LinearTransformsMapping.apply self spatialimage reference how output_dtype)
     = Ok out -> exists r, snd resampling = Ok r).
Proof.
  intros Hprep Hres.
  assert (E : LinearTransformsMapping.apply self spatialimage reference how output_dtype
              = (resampled <~ resampling ;;
                 if is_ImageGrid _ref then
                   newdata <~ lift (reshape (LinearTransformsMapping.__len__ self
                                               :: ref_shape _ref) resampled) ;;
                   moved <~ lift (new_image image (moveaxis_first_to_last newdata) _ref
                                    match output_dtype with
                                    | Some d => d
                                    | None => data_dtype image
                                    end) ;;
                   ret (LinearTransformsMapping.MovedImage moved)
                 else ret (LinearTransformsMapping.Samples resampled))).
  { unfold LinearTransformsMapping.apply. rewrite Hprep, iobind_lift_ok, Hres. reflexivity. }
  rewrite E. clear E Hres. destruct resampling as [log [r|e]]; cbn [iobind fst snd].
  - destruct (is_ImageGrid _ref); unfold lift, ret.
    + destruct (reshape _ r) as [newdata|e]; cbn [iobind fst snd].
      * destruct (new_image _ _ _ _); cbn [fst snd]; rewrite ?app_nil_r;
          (split; [reflexivity
                  | split; [intros ? ?; discriminate | intros; eexists; reflexivity]]).
      * rewrite ?app_nil_r.
        split; [reflexivity
               | split; [intros ? ?; discriminate | intros; eexists; reflexivity]].
    + cbn [fst snd]. rewrite ?app_nil_r.
      split; [reflexivity
             | split; [intros ? ?; discriminate | intros; eexists; reflexivity]].
  - split; [reflexivity|]. split; [intros ? H; injection H as <-; reflexivity | intros ? ?; discriminate].
Qed.

(** X15. Moving data that, squeezed, has a number of axes other than 2, 3
    or 4 is not resampled: [apply] raises with an empty log, and once the
    sample locations have been computed the exception is the
    [UnboundLocalError] of the unassigned [resampled]. *)
Theorem apply_rejects_other_dimensions (self : LinearTransformsMapping.t)
  (spatialimage : LinearTransformsMapping.image_arg)
  (reference : option LinearTransformsMapping.image_arg)
  (how : interpolation) (output_dtype : option Dtype) (image : Image) :
  LinearTransformsMapping.nbload_if_path spatialimage = Ok image ->
  ndim (squeeze (dataobj image)) <> 2%nat ->
  ndim (squeeze (dataobj image)) <> 3%nat ->
  ndim (squeeze (dataobj image)) <> 4%nat ->
  (exists e,
     LinearTransformsMapping.apply self spatialimage reference how output_dtype
     = ([], Raise e)) /\
  (forall prepared,
     LinearTransformsMapping.apply_targets self spatialimage reference = Ok prepared ->
     LinearTransformsMapping.apply self spatialimage reference how output_dtype
     = ([], Raise UnboundLocalError)).
Proof.
  intros Himage H2 H3 H4.
  assert (Hok : forall prepared,
     LinearTransformsMapping.apply_targets self spatialimage reference = Ok prepared ->
     LinearTransformsMapping.apply self spatialimage reference how output_dtype
     = ([], Raise UnboundLocalError)).
  { intros [[[_ref im] data] targets] Hprep.
    destruct (apply_targets_data _ _ _ _ _ _ _ Hprep) as [Him ->].
    rewrite Himage in Him. injection Him as <-.
    unfold LinearTransformsMapping.apply.
    rewrite Hprep. unfold lift. cbn [iobind].
    apply Nat.eqb_neq in H2, H3, H4. rewrite H2, H3, H4. reflexivity. }
  split; [|exact Hok].
  destruct (LinearTransformsMapping.apply_targets self spatialimage reference)
    as [prepared|e] eqn:Hprep.
  - eexists. apply (Hok prepared eq_refl).
  - exists e. unfold LinearTransformsMapping.apply. rewrite Hprep. reflexivity.
Qed.

(** X16. On 2-D and 3-D data [apply] calls [ndi.map_coordinates] exactly
    once, whatever happens afterwards: on the whole data array, at the
    first [_ref.ndim] columns of the targets, transposed. *)
Theorem apply_interpolates_once (self : LinearTransformsMapping.t)
  (spatialimage : LinearTransformsMapping.image_arg)
  (reference : option LinearTransformsMapping.image_arg)
  (how : interpolation) (output_dtype : option Dtype)
  (_ref : Reference) (image : Image) (data : ndarray) (targets : mat) :
  LinearTransformsMapping.apply_targets self spatialimage reference
    = Ok (_ref, image, data, targets) ->
  ndim data = 2%nat \/ ndim data = 3%nat ->
  interpolations
    (fst (LinearTransformsMapping.apply self spatialimage reference how output_dtype))
  = [(data, transpose (first_columns (ref_ndim _ref) targets))].
Proof.
  intros Hprep Hdim.
  destruct (apply_log self spatialimage reference how output_dtype _ref image data targets
              _ Hprep eq_refl) as (-> & _).
  cbv zeta.
  assert (E4 : Nat.eqb (ndim data) 4 = false) by (apply Nat.eqb_neq; lia).
  assert (E23 : Nat.eqb (ndim data) 2 || Nat.eqb (ndim data) 3 = true).
  { destruct Hdim as [-> | ->]; reflexivity. }
  rewrite E4, E23. unfold LinearTransformsMapping.interpolate, emit, lift, ret.
  cbn [iobind]. destruct (map_coordinates _ _ _ _); reflexivity.
Qed.

(** X17. On 4-D data with one transform per volume [apply] interpolates
    volume after volume: the calls made are a prefix of the list of the
    T volumes [data[..., t]], each at the first [_ref.ndim] columns of its
    own block of targets, and they are all T when [apply] returns. *)
Theorem apply_interpolates_each_volume (self : LinearTransformsMapping.t)
  (spatialimage : LinearTransformsMapping.image_arg)
  (reference : option LinearTransformsMapping.image_arg)
  (how : interpolation) (output_dtype : option Dtype)
  (_ref : Reference) (image : Image) (data : ndarray) (targets : mat)
  (blocks : list mat) :
  LinearTransformsMapping.apply_targets self spatialimage reference
    = Ok (_ref, image, data, targets) ->
  ndim data = 4%nat ->
  LinearTransformsMapping.__len__ self = last (shape data) 0%nat ->
  reshape_blocks (LinearTransformsMapping.__len__ self) targets = Ok blocks ->
  (exists k, (k <= LinearTransformsMapping.__len__ self)%nat /\
     interpolations
       (fst (LinearTransformsMapping.apply self spatialimage reference how output_dtype))
     = firstn k
         (List.map (fun t => (take_last_axis t data,
                              transpose (first_columns (ref_ndim _ref)
                                           (nth t blocks (mkmat [] 0)))))
            (seq 0 (LinearTransformsMapping.__len__ self)))) /\
  (forall out,
     snd (LinearTransformsMapping.apply self spatialimage reference how output_dtype)
     = Ok out ->
     interpolations
       (fst (LinearTransformsMapping.apply self spatialimage reference how output_dtype))
     = List.map (fun t => (take_last_axis t data,
                           transpose (first_columns (ref_ndim _ref)
                                        (nth t blocks (mkmat [] 0)))))
         (seq 0 (LinearTransformsMapping.__len__ self))).
Proof.
  intros Hprep Hdim Hlen Hblocks.
  set (dt := match output_dtype with Some d => d | None => data_dtype image end).
  set (f := fun t : nat =>
              tt' <~ lift (py_index blocks (Z.of_nat t)) ;;
              LinearTransformsMapping.interpolate (take_last_axis t data)
                (transpose (first_columns (ref_ndim _ref) tt')) dt how).
  set (g := fun t : nat => (take_last_axis t data,
                            transpose (first_columns (ref_ndim _ref)
                                         (nth t blocks (mkmat [] 0))))).
  destruct (apply_log self spatialimage reference how output_dtype _ref image data targets
              (volumes <~ iomapM f (seq 0 (LinearTransformsMapping.__len__ self)) ;;
               lift (stack_vectors volumes)) Hprep) as (Hfst & _ & Hsnd).
  { cbv zeta. rewrite Hdim, <- Hlen, !Nat.eqb_refl, Hblocks. cbn [negb].
    rewrite iobind_lift_ok. reflexivity. }
  rewrite Hfst.
  assert (Hn := reshape_blocks_length _ _ _ Hblocks).
  destruct (iomapM_interpolations f g (seq 0 (LinearTransformsMapping.__len__ self)))
    as ((k & Hk & Hpre) & Hall).
  { intros t Hin. apply in_seq in Hin. right. unfold f, g.
    assert (Ht : nth_error blocks t = Some (nth t blocks (mkmat [] 0)))
      by (apply nth_error_nth'; lia).
    rewrite (py_index_nat blocks t _ Ht), iobind_lift_ok.
    unfold LinearTransformsMapping.interpolate, emit, lift. cbn [iobind].
    destruct (map_coordinates _ _ _ _); reflexivity. }
  rewrite length_seq in Hk.
  destruct (iomapM f (seq 0 (LinearTransformsMapping.__len__ self))) as [log [vs|e]] eqn:E;
    cbn [fst snd iobind] in *.
  - unfold lift in *. cbn [fst snd] in *. rewrite app_nil_r.
    split; [exists k; auto | intros out _; apply (Hall vs eq_refl)].
  - split; [exists k; auto|]. intros out Hout. destruct (Hsnd out Hout) as (r & Hr).
    discriminate.
Qed.

(** X18. Without a reference, neither given to [apply] nor bound to the
    mapping, an image that loads is not resampled: the outcome is the
    [AttributeError] of [None.ndcoords], and no interpolation is called. *)
Theorem apply_needs_a_reference (self : LinearTransformsMapping.t)
  (spatialimage : LinearTransformsMapping.image_arg)
  (how : interpolation) (output_dtype : option Dtype) (image : Image) :
  LinearTransformsMapping.reference self = None ->
  LinearTransformsMapping.nbload_if_path spatialimage = Ok image ->
  snd (LinearTransformsMapping.apply self spatialimage None how output_dtype)
  = Raise AttributeError /\
  interpolations
    (fst (LinearTransformsMapping.apply self spatialimage None how output_dtype)) = [].
Proof.
  intros Href Himage.
  unfold LinearTransformsMapping.apply, LinearTransformsMapping.apply_targets.
  cbn [rbind]. rewrite Href, Himage. cbn [rbind lift iobind fst snd].
  split; reflexivity.
Qed.


End ResamplingProperties.

Section ExportProperties.
Context {C : Collaborators}.

(** X22. Export to the ITK family of formats looks at the matrix only:
    neither the bound reference nor the [moving] argument has any effect,
    and [ImageGrid(moving)] is not even evaluated, so that a moving image
    that is no grid does not make the call fail. *)
Theorem itk_export_ignores_grids (m : mat) (ms : list mat)
  (r r' : option Reference) (filename fmt : string) (moving moving' : option Image) :
  str_in (lower fmt) ["itk"; "ants"; "elastix"]%string = true ->
  Affine.to_filename (Affine.make m r) filename fmt moving
  = Affine.to_filename (Affine.make m r') filename fmt moving' /\
  LinearTransformsMapping.to_filename (LinearTransformsMapping.make ms r) filename fmt moving
  = LinearTransformsMapping.to_filename (LinearTransformsMapping.make ms r')
      filename fmt moving'.
Proof.
  intros H. unfold Affine.to_filename, LinearTransformsMapping.to_filename.
  rewrite H. split; reflexivity.
Qed.

End ExportProperties.

(** ** The further properties on concrete inputs *)

Lemma translation_123_square : square 4 translation_123.
Proof. unfold square, wf_mat. split; [repeat constructor | split; reflexivity]. Qed.

Lemma translation_back_square : square 4 translation_back.
Proof. unfold square, wf_mat. split; [repeat constructor | split; reflexivity]. Qed.

Lemma translation_123_homogeneous : homogeneous_last_row translation_123.
Proof. unfold homogeneous_last_row. apply vec_eqb_eq. vm_compute. reflexivity. Qed.

Lemma translation_back_homogeneous : homogeneous_last_row translation_back.
Proof. unfold homogeneous_last_row. apply vec_eqb_eq. vm_compute. reflexivity. Qed.

Lemma origin_wf : wf_mat (atleast_2d (Point origin)).
Proof. unfold wf_mat. repeat constructor. Qed.

(** X1 on the two translations of the doctests, inverted. *)
Lemma Mapping_map_entries_of_two_translations :
  exists ys,
    LinearTransformsMapping.map (C := toy)
      (LinearTransformsMapping.make [translation_123; translation_back] None)
      (Point origin) (PyBool true) = Ok ys /\
    List.length ys
    = LinearTransformsMapping.__len__ (C := toy)
        (LinearTransformsMapping.make [translation_123; translation_back] None) /\
    forall i y, nth_error ys i = Some y ->
      exists a,
        LinearTransformsMapping.__getitem__ (C := toy)
          (LinearTransformsMapping.make [translation_123; translation_back] None)
          (Z.of_nat i) = Ok a /\
        Affine.map a (Point origin) (PyBool true) = Ok (drop_last_column y).
Proof.
  destruct (LinearTransformsMapping.map (C := toy)
              (LinearTransformsMapping.make [translation_123; translation_back] None)
              (Point origin) (PyBool true)) as [ys|e] eqn:H.
  - exists ys. split; [reflexivity|].
    apply (Mapping_map_entries_are_Affine_maps (C := toy)
             (LinearTransformsMapping.make [translation_123; translation_back] None)
             (Point origin) (PyBool true) ys); [|exact H].
    repeat constructor.
  - exfalso. vm_compute in H. discriminate.
Defined.

(** X2 on the two translations of the doctests. *)
Lemma Mapping_map_two_translations_homogeneous :
  exists ys,
    LinearTransformsMapping.map (C := toy)
      (LinearTransformsMapping.make [translation_123; translation_back] None)
      (Point origin) (PyBool false) = Ok ys /\
    List.length ys
    = LinearTransformsMapping.__len__ (C := toy)
        (LinearTransformsMapping.make [translation_123; translation_back] None) /\
    Forall (fun y => nrows y = nrows (atleast_2d (Point origin)) /\ ncols y = 4%nat /\
                     Forall (fun r => List.length r = 4%nat /\ last r 0 = 1) (rows y)) ys.
Proof.
  apply (Mapping_map_forward_is_homogeneous (C := toy)
           (LinearTransformsMapping.make [translation_123; translation_back] None)
           3 (Point origin)).
  - repeat constructor;
      first [exact translation_123_square | exact translation_back_square
            | exact translation_123_homogeneous | exact translation_back_homogeneous].
  - exact origin_wf.
  - reflexivity.
Defined.

(** X3 on the origin, with [inverse=True]. *)
Lemma Affine_default_maps_origin :
  (a <- Affine.__init__ (C := toy) None None ;; Affine.map a (Point origin) (PyBool true))
  = Ok (atleast_2d (Point origin)).
Proof.
  apply (Affine_default_maps_identically (C := toy) None (Point origin) (PyBool true)).
  - exact origin_wf.
  - reflexivity.
Defined.

(** X4 on the translation of the doctests. *)
Lemma map_forward_recovers_origin :
  (y <- Affine.map (C := toy) (Affine.make translation_123 None) (Point origin) (PyBool true) ;;
   Affine.map (C := toy) (Affine.make translation_123 None) (Points y) (PyBool false))
  = Ok (atleast_2d (Point origin)).
Proof.
  apply (map_forward_recovers_points (C := toy) linalg_inv
           (Affine.make translation_123 None) 3 (Point origin) translation_back).
  - exact translation_123_square.
  - exact translation_123_homogeneous.
  - eval_mat.
  - exact translation_back_square.
  - eval_mat.
  - exact origin_wf.
  - reflexivity.
Defined.

(** X5 on the translation and its inverse, which compose to the identity. *)
Lemma map_composes_translations :
  (y <- Affine.map (C := toy) (Affine.make translation_123 None) (Point origin) (PyBool false) ;;
   Affine.map (C := toy) (Affine.make translation_back None) (Points y) (PyBool false))
  = Affine.map (C := toy) (Affine.make (eye 4) None) (Point origin) (PyBool false).
Proof.
  apply (map_composes_as_dot (C := toy) (Affine.make translation_123 None)
           (Affine.make translation_back None) (Affine.make (eye 4) None) 3 (Point origin)).
  - exact translation_123_square.
  - exact translation_123_homogeneous.
  - exact translation_back_square.
  - cbn [Affine.matrix Affine._matrix]. eval_mat.
  - exact origin_wf.
  - reflexivity.
Defined.


(** X7 on the two translations, at index -1. *)
Lemma Mapping_getitem_last :
  ((0 <= -1 < Z.of_nat (LinearTransformsMapping.__len__ (C := toy)
                          (LinearTransformsMapping.make
                             [translation_123; translation_back] None)))%Z ->
   LinearTransformsMapping.__getitem__ (C := toy)
     (LinearTransformsMapping.make [translation_123; translation_back] None) (-1)
   = Ok (Affine.make
           (nth (Z.to_nat (-1))
              (LinearTransformsMapping.matrix (C := toy)
                 (LinearTransformsMapping.make [translation_123; translation_back] None))
              (eye 4))
           (LinearTransformsMapping._reference (C := toy)
              (LinearTransformsMapping.make [translation_123; translation_back] None)))) /\
  ((- Z.of_nat (LinearTransformsMapping.__len__ (C := toy)
                  (LinearTransformsMapping.make
                     [translation_123; translation_back] None)) <= -1 < 0)%Z ->
   LinearTransformsMapping.__getitem__ (C := toy)
     (LinearTransformsMapping.make [translation_123; translation_back] None) (-1)
   = LinearTransformsMapping.__getitem__ (C := toy)
       (LinearTransformsMapping.make [translation_123; translation_back] None)
       (Z.of_nat (LinearTransformsMapping.__len__ (C := toy)
                    (LinearTransformsMapping.make
                       [translation_123; translation_back] None)) + -1)) /\
  ((-1 < - Z.of_nat (LinearTransformsMapping.__len__ (C := toy)
                       (LinearTransformsMapping.make
                          [translation_123; translation_back] None))
    \/ Z.of_nat (LinearTransformsMapping.__len__ (C := toy)
                   (LinearTransformsMapping.make
                      [translation_123; translation_back] None)) <= -1)%Z ->
   LinearTransformsMapping.__getitem__ (C := toy)
     (LinearTransformsMapping.make [translation_123; translation_back] None) (-1)
   = Raise IndexError).
Proof.
  apply (Mapping_getitem_indexes (C := toy)
           (LinearTransformsMapping.make [translation_123; translation_back] None) (-1)).
  repeat constructor.
Defined.

(** X8 on the translation, bound to one grid on both sides. *)
Lemma Affine_eq_translation_same_reference :
  Affine.__eq__ (C := toy) (Affine.make (C := toy) translation_123 (Some one_voxel))
    (Affine.make (C := toy) translation_123 (Some one_voxel))
  = ([], Ok true).
Proof.
  apply (Affine_eq_same_matrix (C := toy) translation_123
           (@Some (@Reference toy) one_voxel) (@Some (@Reference toy) one_voxel) false).
  - apply Qc_leb_le. vm_compute. reflexivity.
  - reflexivity.
Defined.

(** The translation unbound and bound to a grid: where a grid compared
    with [None] raises, so does [==]. *)
Example Affine_eq_one_reference_bound :
  Affine.__eq__ (C := toy) (Affine.make translation_123 None)
    (Affine.make (C := toy) translation_123 (Some one_voxel))
  = ([], Raise AttributeError).
Proof. reflexivity. Qed.

(** X9 on the identities of size 3 and 4. *)
Lemma Affine_eq_raises_on_eye_3_and_4 :
  exists msg,
    Affine.__eq__ (C := toy) (Affine.make (eye 3) None) (Affine.make (eye 4) None)
    = ([], Raise (ValueError msg)).
Proof.
  apply (Affine_eq_raises_on_sizes (C := toy) (Affine.make (eye 3) None)
           (Affine.make (eye 4) None)); vm_compute; discriminate.
Defined.

(** X11 on the format name as AFNI's users write it. *)
Lemma afni_is_write_only :
  from_filename (C := toy) Affine_class "xfm.afni" "AFNI" None None
  = Raise NotImplementedError /\
  load (C := toy) "xfm.afni" "AFNI" None None = Raise NotImplementedError /\
  forall text,
    adapter_text (Collaborators := toy)
      (if String.eqb (lower "AFNI") "afni" then AFNILinearTransform
       else FSLLinearTransform)
      (Matrix (Affine.matrix (C := toy) (Affine.make translation_123 None)))
      (Affine.reference (C := toy) (Affine.make translation_123 None))
      (Affine.reference (C := toy) (Affine.make translation_123 None)) = Ok text ->
    Affine.to_filename (C := toy) (Affine.make translation_123 None) "xfm.afni" "AFNI" None
    = ([FileWrite "xfm.afni" text], Ok "xfm.afni"%string).
Proof.
  apply (afni_and_fsl_are_write_only (C := toy) Affine_class
           (Affine.make translation_123 None) "xfm.afni" "AFNI" None None).
  reflexivity.
Defined.

(** X12 on the format name in capitals. *)
Lemma LTA_is_read_only :
  factory_for "LTA" = Ok LinearTransformArray_factory /\
  Affine.to_filename (C := toy) (Affine.make translation_123 None) "out.lta" "LTA" None
  = ([], Raise NotImplementedError) /\
  LinearTransformsMapping.to_filename (C := toy)
    (LinearTransformsMapping.make [translation_123; translation_back] None)
    "out.lta" "LTA" None
  = ([], Raise NotImplementedError).
Proof.
  apply (lta_is_read_only (C := toy) (Affine.make translation_123 None)
           (LinearTransformsMapping.make [translation_123; translation_back] None)
           "out.lta" "LTA").
  reflexivity.
Defined.

(** X13 on the file of two transforms. *)
Lemma Affine_from_filename_two_transforms :
  (List.length [translation_123; translation_back] <> 1%nat ->
   from_filename (C := toy) Affine_class "two.tfm" "itk" None None
   = Raise (TypeError ("Cannot load transform array " ++ quoted "two.tfm"))) /\
  (List.length [translation_123; translation_back] = 1%nat ->
   from_filename (C := toy) Affine_class "two.tfm" "itk" None None
   = load (C := toy) "two.tfm" "itk" None None /\
   exists m, [translation_123; translation_back] = [m] /\
     load (C := toy) "two.tfm" "itk" None None = Ok (Single (Affine.make m None))).
Proof.
  apply (Affine_from_filename_takes_one (C := toy) "two.tfm" "itk" None None
           ITKLinearTransformArray_factory [translation_123; translation_back]).
  - reflexivity.
  - reflexivity.
  - repeat constructor.
Defined.

(** X15 on an image of a single voxel, which [np.squeeze] leaves 0-D. *)
Lemma apply_rejects_single_voxel :
  (exists e,
     LinearTransformsMapping.apply (C := toy)
       (LinearTransformsMapping.make (C := toy)
          [translation_123; translation_back] (Some one_voxel))
       (LinearTransformsMapping.Loaded (C := toy) single_voxel) None
       (mkInterpolation 3 "constant" (qz 0) true) None
     = ([], Raise e)) /\
  (forall prepared,
     LinearTransformsMapping.apply_targets (C := toy)
       (LinearTransformsMapping.make (C := toy)
          [translation_123; translation_back] (Some one_voxel))
       (LinearTransformsMapping.Loaded (C := toy) single_voxel) None = Ok prepared ->
     LinearTransformsMapping.apply (C := toy)
       (LinearTransformsMapping.make (C := toy)
          [translation_123; translation_back] (Some one_voxel))
       (LinearTransformsMapping.Loaded (C := toy) single_voxel) None
       (mkInterpolation 3 "constant" (qz 0) true) None
     = ([], Raise UnboundLocalError)).
Proof.
  apply (apply_rejects_other_dimensions (C := toy)
           (LinearTransformsMapping.make (C := toy)
              [translation_123; translation_back] (Some one_voxel))
           (LinearTransformsMapping.Loaded (C := toy) single_voxel) None
           (mkInterpolation 3 "constant" (qz 0) true) None single_voxel).
  - reflexivity.
  - vm_compute. discriminate.
  - vm_compute. discriminate.
  - vm_compute. discriminate.
Defined.

(** X16 on a 3-D image and two transforms. *)
Lemma apply_interpolates_once_in_3d :
  exists _ref image data targets,
    LinearTransformsMapping.apply_targets (C := toy)
      (LinearTransformsMapping.make (C := toy)
         [translation_123; translation_back] (Some one_voxel))
      (LinearTransformsMapping.Loaded (C := toy) (mkarr [2; 2; 3]%nat (repeat (qz 0) 12)))
      None = Ok (_ref, image, data, targets) /\
    interpolations
      (fst (LinearTransformsMapping.apply (C := toy)
              (LinearTransformsMapping.make (C := toy)
                 [translation_123; translation_back] (Some one_voxel))
              (LinearTransformsMapping.Loaded (C := toy)
                 (mkarr [2; 2; 3]%nat (repeat (qz 0) 12)))
              None (mkInterpolation 3 "constant" (qz 0) true) None))
    = [(data, transpose (first_columns (ref_ndim _ref) targets))].
Proof.
  destruct (LinearTransformsMapping.apply_targets (C := toy)
              (LinearTransformsMapping.make (C := toy)
                 [translation_123; translation_back] (Some one_voxel))
              (LinearTransformsMapping.Loaded (C := toy)
                 (mkarr [2; 2; 3]%nat (repeat (qz 0) 12))) None)
    as [[[[_ref image] data] targets]|e] eqn:H.
  - exists _ref, image, data, targets. split; [reflexivity|].
    apply (apply_interpolates_once (C := toy) _ _ _ _ _ _ref image data targets H).
    destruct (apply_targets_data (C := toy) _ _ _ _ _ _ _ H) as [Him ->].
    injection Him as <-. right. reflexivity.
  - exfalso. vm_compute in H. discriminate.
Defined.

(** X17 on two volumes and two transforms. *)
Lemma apply_interpolates_two_volumes :
  exists _ref image data targets blocks,
    LinearTransformsMapping.apply_targets (C := toy)
      (LinearTransformsMapping.make (C := toy)
         [translation_123; translation_back] (Some one_voxel))
      (LinearTransformsMapping.Loaded (C := toy) two_volumes) None
    = Ok (_ref, image, data, targets) /\
    reshape_blocks 2 targets = Ok blocks /\
    forall out,
      snd (LinearTransformsMapping.apply (C := toy)
             (LinearTransformsMapping.make (C := toy)
                [translation_123; translation_back] (Some one_voxel))
             (LinearTransformsMapping.Loaded (C := toy) two_volumes) None
             (mkInterpolation 3 "constant" (qz 0) true) None) = Ok out ->
      interpolations
        (fst (LinearTransformsMapping.apply (C := toy)
                (LinearTransformsMapping.make (C := toy)
                   [translation_123; translation_back] (Some one_voxel))
                (LinearTransformsMapping.Loaded (C := toy) two_volumes) None
                (mkInterpolation 3 "constant" (qz 0) true) None))
      = List.map (fun t => (take_last_axis t data,
                            transpose (first_columns (ref_ndim _ref)
                                         (nth t blocks (mkmat [] 0)))))
          (seq 0 2).
Proof.
  destruct (LinearTransformsMapping.apply_targets (C := toy)
              (LinearTransformsMapping.make (C := toy)
                 [translation_123; translation_back] (Some one_voxel))
              (LinearTransformsMapping.Loaded (C := toy) two_volumes) None)
    as [[[[_ref image] data] targets]|e] eqn:H;
    [|exfalso; vm_compute in H; discriminate].
  destruct (reshape_blocks 2 targets) as [blocks|e] eqn:Hb.
  - exists _ref, image, data, targets, blocks.
    split; [reflexivity|]. split; [exact Hb|].
    destruct (apply_targets_data (C := toy) _ _ _ _ _ _ _ H) as [Him Hdata].
    injection Him as <-.
    apply (apply_interpolates_each_volume (C := toy) _ _ _
             (mkInterpolation 3 "constant" (qz 0) true) None
             _ref two_volumes data targets blocks H).
    + rewrite Hdata. reflexivity.
    + rewrite Hdata. reflexivity.
    + exact Hb.
  - exfalso. vm_compute in H. injection H as _ _ _ <-. vm_compute in Hb. discriminate.
Defined.

(** X18 on a mapping without a reference. *)
Lemma apply_without_reference :
  snd (LinearTransformsMapping.apply (C := toy)
         (LinearTransformsMapping.make (C := toy) [translation_123; translation_back] None)
         (LinearTransformsMapping.Loaded (C := toy) two_volumes) None
         (mkInterpolation 3 "constant" (qz 0) true) None)
  = Raise AttributeError /\
  interpolations
    (fst (LinearTransformsMapping.apply (C := toy)
            (LinearTransformsMapping.make (C := toy)
               [translation_123; translation_back] None)
            (LinearTransformsMapping.Loaded (C := toy) two_volumes) None
            (mkInterpolation 3 "constant" (qz 0) true) None)) = [].
Proof.
  apply (apply_needs_a_reference (C := toy)
           (LinearTransformsMapping.make (C := toy)
              [translation_123; translation_back] None)
           (LinearTransformsMapping.Loaded (C := toy) two_volumes)
           (mkInterpolation 3 "constant" (qz 0) true) None two_volumes);
    reflexivity.
Defined.


(** X22 on a moving image given and none, with and without a reference. *)
Lemma itk_export_of_translation_ignores_grids :
  Affine.to_filename (C := toy) (Affine.make (C := toy) translation_123 (Some one_voxel))
    "out.tfm" "ITK" (Some two_volumes)
  = Affine.to_filename (C := toy) (Affine.make translation_123 None) "out.tfm" "ITK" None /\
  LinearTransformsMapping.to_filename (C := toy)
    (LinearTransformsMapping.make (C := toy) [translation_123; translation_back]
       (Some one_voxel)) "out.tfm" "ITK" (Some two_volumes)
  = LinearTransformsMapping.to_filename (C := toy)
      (LinearTransformsMapping.make [translation_123; translation_back] None)
      "out.tfm" "ITK" None.
Proof.
  apply (itk_export_ignores_grids (C := toy) translation_123
           [translation_123; translation_back]
           (@Some (@Reference toy) one_voxel) None "out.tfm" "ITK"
           (@Some (@Image toy) two_volumes) None).
  reflexivity.
Defined.
